(** * Excel-to-LLM context feeder: a shallow embedding of [src/utils.py],
    [src/converter.py] and [src/cli.py], and the properties of chunking,
    template rendering, sheet loading, format dispatch, summarising and the
    command line that follow from the code.

    Python values are modelled as follows.
    - [int] is [Z]; [str] is [string]; a [list] is a [list].
    - A [dict] is an association list in insertion order (Python dictionaries
      iterate in insertion order, and the order of the sheets is observable
      in the output).
    - A raised exception is the [Raise] case of [result]; [print] appends a
      line to the [stdout] component of a [run].
    - pandas is an external library: the operations the code calls on it
      whose results are not determined by the repository (reading a
      workbook, the three renderers, dtype inference, memory accounting,
      [describe], float formatting) are the fields of the interface
      [Pandas]; the shape of a table ([len], [empty], [iloc], [fillna],
      [isnull().sum()]) is modelled concretely on [DataFrame].
    - The Unicode-aware string methods [str.lower()], [str.upper()] and
      [str.strip()] are interface operations as well ([str_lower] of
      [Pandas], [str_upper] and [str_strip] of [Cli.Host]): the statements
      hold for every such operation, and only what CPython documents about
      them is assumed, where it is needed.  Their ASCII restrictions
      ([Py.lower], [upper], [strip]) instantiate the interface in the
      worked examples. *)

From Stdlib Require Import ZArith List String Ascii Bool Lia DecimalString.
Import ListNotations.

Open Scope string_scope.
Open Scope Z_scope.

(* ===================================================================== *)
(** ** Python runtime                                                     *)
(* ===================================================================== *)

Module Py.

(** The exception classes the code raises or can run into. *)
Inductive exn : Type :=
| ValueError (msg : string)
| TypeError (msg : string)
| UnboundLocalError (name : string)
| Exception (msg : string).

(** [str(e)].  The text of [UnboundLocalError] is CPython's (3.11 and
    later); no statement below depends on its wording. *)
Definition str_exn (e : exn) : string :=
  match e with
  | ValueError m | TypeError m | Exception m => m
  | UnboundLocalError v =>
      "cannot access local variable '" ++ v
        ++ "' where it is not associated with a value"
  end.

Inductive result (A : Type) : Type :=
| Ok (a : A)
| Raise (e : exn).
Arguments Ok {A} a.
Arguments Raise {A} e.

Definition bind {A B : Type} (r : result A) (k : A -> result B) : result B :=
  match r with
  | Ok a => k a
  | Raise e => Raise e
  end.

(** [try: body  except Exception as e: raise Exception(f"{prefix}{str(e)}")] *)
Definition try_except {A : Type} (prefix : string) (body : result A) : result A :=
  match body with
  | Ok a => Ok a
  | Raise e => Raise (Exception (prefix ++ str_exn e))
  end.

(** What a call prints and how it ends. *)
Record run (A : Type) : Type := mkRun { stdout : list string; outcome : result A }.
Arguments mkRun {A} stdout outcome.
Arguments stdout {A} r.
Arguments outcome {A} r.

(** *** Strings *)

Definition nl : string := String (ascii_of_nat 10) EmptyString.

(** [sep.join(parts)] *)
Definition join (sep : string) (parts : list string) : string :=
  String.concat sep parts.

(** [str(n)] for an [int]. *)
Definition str_of_Z (n : Z) : string := NilZero.string_of_int (Z.to_int n).

(** [f"{n:,}"]: decimal digits grouped by three from the right. *)
Fixpoint commas_rev (ds : list ascii) (k : nat) : list ascii :=
  match ds with
  | [] => []
  | d :: ds' =>
      match k with
      | O => ","%char :: d :: commas_rev ds' 2
      | S k' => d :: commas_rev ds' k'
      end
  end.

Definition group_digits (digits : string) : string :=
  string_of_list_ascii (rev (commas_rev (rev (list_ascii_of_string digits)) 3)).

Definition format_thousands (n : Z) : string :=
  if n <? 0 then "-" ++ group_digits (str_of_Z (- n))
  else group_digits (str_of_Z n).

(** [s.isascii()] *)
Definition is_ascii_char (c : ascii) : bool := Nat.ltb (nat_of_ascii c) 128.

Fixpoint is_ascii (s : string) : bool :=
  match s with
  | EmptyString => true
  | String c s' => andb (is_ascii_char c) (is_ascii s')
  end.

(** What [s.lower()] does to ASCII text: the letters [A]-[Z] are mapped to
    [a]-[z], every other byte is kept.  This is not [str.lower()] on
    arbitrary text (which also maps, for instance, U+212A KELVIN SIGN to
    [k]): the code's calls of [.lower()] go through [str_lower] of the
    interface [Pandas], of which this function is the value on ASCII
    text. *)
Definition lower_ascii (c : ascii) : ascii :=
  let n := nat_of_ascii c in
  if andb (Nat.leb 65 n) (Nat.leb n 90) then ascii_of_nat (n + 32) else c.

Fixpoint lower (s : string) : string :=
  match s with
  | EmptyString => EmptyString
  | String c s' => String (lower_ascii c) (lower s')
  end.

(** [s.replace(old, new)]: the occurrences of [old] are found from left to
    right, each search resuming after the end of the previous match; the
    text between matches is copied.  [skip] counts the characters of a match
    that are still to be passed over. *)
Fixpoint replace_from (old new : string) (skip : nat) (s : string) : string :=
  match s with
  | EmptyString => EmptyString
  | String c s' =>
      match skip with
      | S k => replace_from old new k s'
      | O =>
          if String.prefix old s
          then new ++ replace_from old new (String.length old - 1) s'
          else String c (replace_from old new 0 s')
      end
  end.

(** With an empty [old], Python inserts [new] before every character and at
    the end. *)
Fixpoint interleave (new s : string) : string :=
  match s with
  | EmptyString => new
  | String c s' => new ++ String c (interleave new s')
  end.

Definition replace (s old new : string) : string :=
  match old with
  | EmptyString => interleave new s
  | String _ _ => replace_from old new 0 s
  end.

(** *** [range] and slices *)

Fixpoint range_up (fuel : nat) (i stop step : Z) : list Z :=
  match fuel with
  | O => []
  | S fuel' => if i <? stop then i :: range_up fuel' (i + step) stop step else []
  end.

Fixpoint range_down (fuel : nat) (i stop step : Z) : list Z :=
  match fuel with
  | O => []
  | S fuel' => if stop <? i then i :: range_down fuel' (i + step) stop step else []
  end.

(** [range(start, stop, step)], iterated to the end.  The loops run at most
    [|stop - start|] times because [step] is a non-zero integer. *)
Definition range (start stop step : Z) : result (list Z) :=
  if step =? 0 then Raise (ValueError "range() arg 3 must not be zero")
  else if 0 <? step then Ok (range_up (Z.to_nat (stop - start)) start stop step)
  else Ok (range_down (Z.to_nat (start - stop)) start stop step).

(** A slice bound as Python normalises it against a length [n]. *)
Definition clamp_index (n i : Z) : Z :=
  if i <? 0 then Z.max 0 (i + n) else Z.min i n.

(** [l[start:stop]] *)
Definition slice {A : Type} (l : list A) (start stop : Z) : list A :=
  let n := Z.of_nat (List.length l) in
  let lo := clamp_index n start in
  let hi := clamp_index n stop in
  firstn (Z.to_nat (hi - lo)) (skipn (Z.to_nat lo) l).

(** [enumerate(l)] *)
Fixpoint enumerate_from {A : Type} (i : Z) (l : list A) : list (Z * A) :=
  match l with
  | [] => []
  | x :: l' => (i, x) :: enumerate_from (i + 1) l'
  end.

Definition enumerate {A : Type} (l : list A) : list (Z * A) := enumerate_from 0 l.

(** [l.append(x)], as the new value of [l] *)
Definition append {A : Type} (l : list A) (x : A) : list A := (l ++ [x])%list.

(** *** Dictionaries with string keys *)

Definition dict (V : Type) : Type := list (string * V).

(** [d[k] = v]: an existing key keeps its position. *)
Fixpoint dict_set {V : Type} (k : string) (v : V) (d : dict V) : dict V :=
  match d with
  | [] => [(k, v)]
  | (k', v') :: d' =>
      if String.eqb k' k then (k, v) :: d' else (k', v') :: dict_set k v d'
  end.

Definition dict_of_list {V : Type} (kvs : list (string * V)) : dict V :=
  fold_left (fun d kv => dict_set (fst kv) (snd kv) d) kvs [].

Definition dict_values {V : Type} (d : dict V) : list V := map snd d.

(** [not d] *)
Definition dict_is_empty {V : Type} (d : dict V) : bool :=
  match d with [] => true | _ :: _ => false end.

End Py.

Import Py.

Declare Scope py_scope.
Notation "x <- c ;; k" := (bind c (fun x => k))
  (at level 61, c at next level, right associativity) : py_scope.
Open Scope py_scope.

(* ===================================================================== *)
(** ** Tables                                                             *)
(* ===================================================================== *)

(** A cell of a loaded sheet.  [NaN] stands for every value pandas treats as
    null ([NaN], [None], [NaT]); [Float] carries the bit pattern of a
    non-NaN double, [Date] a timestamp in nanoseconds. *)
Inductive cell : Type :=
| NaN
| Text (s : string)
| Int (z : Z)
| Float (bits : Z)
| Boolean (b : bool)
| Date (ns : Z).

(** A [pandas.DataFrame] with the default integer index: the column labels
    and the rows in order, each row holding one cell per column. *)
Record DataFrame : Type := mkDataFrame {
  columns : list string;
  rows : list (list cell)
}.

(** [len(df)] *)
Definition len (df : DataFrame) : Z := Z.of_nat (List.length (rows df)).

(** [df.empty]: some axis has length zero. *)
Definition empty (df : DataFrame) : bool :=
  match columns df, rows df with
  | _ :: _, _ :: _ => false
  | _, _ => true
  end.

(** [df.iloc[start:stop]] *)
Definition iloc (df : DataFrame) (start stop : Z) : DataFrame :=
  {| columns := columns df; rows := slice (rows df) start stop |}.

Definition isnull (c : cell) : bool :=
  match c with NaN => true | _ => false end.

Definition fill_cell (value : string) (c : cell) : cell :=
  match c with NaN => Text value | _ => c end.

(** [df.fillna(value)] *)
Definition fillna (value : string) (df : DataFrame) : DataFrame :=
  {| columns := columns df; rows := map (map (fill_cell value)) (rows df) |}.

(** The cells of column number [j], top to bottom. *)
Definition column_cells (df : DataFrame) (j : nat) : list cell :=
  map (fun r => nth j r NaN) (rows df).

Definition count_null (cells : list cell) : Z :=
  Z.of_nat (List.length (filter isnull cells)).

(** [df.isnull().sum()]: per column, in column order. *)
Definition isnull_sum (df : DataFrame) : list (string * Z) :=
  map (fun jc => (snd jc, count_null (column_cells df (fst jc))))
      (combine (seq 0 (List.length (columns df))) (columns df)).

(** What the code asks of pandas, of float formatting and of [str.lower()].
    [source] is the file path or file-like object handed to [read_excel];
    [pyfloat] is the type of the statistics [describe] returns.

    Only the two readers are fallible here.  The renderers and the summary
    operations are taken to return: an exception raised inside them (for
    instance [ImportError] from [to_markdown] when the optional package
    [tabulate] is not installed) is outside this interface, and every
    statement below about the way a conversion fails is a statement about
    the runs in which these operations return. *)
Record Pandas (source pyfloat : Type) : Type := mkPandas {
  (** [pd.read_excel(f, sheet_name=None, engine='openpyxl', na_filter=b)] *)
  read_excel_all : source -> bool -> result (dict DataFrame);
  (** [pd.read_excel(f, sheet_name=s, engine='openpyxl', na_filter=b)] *)
  read_excel : source -> string -> bool -> result DataFrame;
  (** [df.to_csv(index=False, sep=',')] *)
  to_csv : DataFrame -> string;
  (** [df.to_json(orient='records', indent=2, force_ascii=False)] *)
  to_json : DataFrame -> string;
  (** [df.to_markdown(index=False)] *)
  to_markdown : DataFrame -> string;
  (** [df.dtypes], as text, in column order *)
  dtypes : DataFrame -> list string;
  (** [df.memory_usage(deep=True).sum()] *)
  memory_usage : DataFrame -> Z;
  (** [df.select_dtypes(include=['number']).columns] *)
  number_columns : DataFrame -> list string;
  (** [df[cols].describe().to_dict()] *)
  describe : DataFrame -> list string -> dict (dict pyfloat);
  (** [pd.notna(value)] *)
  notna : pyfloat -> bool;
  (** [f"{m / 1024:.2f}"] *)
  format_kb : Z -> string;
  (** [f"{value:.4f}"] *)
  format_4f : pyfloat -> string;
  (** [s.lower()] *)
  str_lower : string -> string;
  (** On ASCII text [s.lower()] maps [A]-[Z] to [a]-[z] and keeps the rest. *)
  str_lower_ascii : forall s, is_ascii s = true -> str_lower s = lower s
}.

Arguments read_excel_all {source pyfloat} _ _ _.
Arguments read_excel {source pyfloat} _ _ _ _.
Arguments to_csv {source pyfloat} _ _.
Arguments to_json {source pyfloat} _ _.
Arguments to_markdown {source pyfloat} _ _.
Arguments dtypes {source pyfloat} _ _.
Arguments memory_usage {source pyfloat} _ _.
Arguments number_columns {source pyfloat} _ _.
Arguments describe {source pyfloat} _ _ _.
Arguments notna {source pyfloat} _ _.
Arguments format_kb {source pyfloat} _ _.
Arguments format_4f {source pyfloat} _ _.
Arguments str_lower {source pyfloat} _ _.
Arguments str_lower_ascii {source pyfloat} _ _ _.

(* ===================================================================== *)
(** ** [src/utils.py]                                                     *)
(* ===================================================================== *)

(** The body of the loop of [chunk_df]: [df.iloc[i:i + chunk_size]]. *)
Definition chunk_at (df : DataFrame) (chunk_size i : Z) : DataFrame :=
  iloc df i (i + chunk_size).

(** [chunk_df(df, chunk_size)] *)
Definition chunk_df (df : DataFrame) (chunk_size : Z) : result (list DataFrame) :=
  if len df <=? chunk_size then Ok [df]
  else
    starts <- range 0 (len df) chunk_size ;;
    Ok (map (chunk_at df chunk_size) starts).

Definition placeholder : string := "[formatted_data]".

(** [format_prompt(data_text, prompt_template)] *)
Definition format_prompt (data_text prompt_template : string) : string :=
  replace prompt_template placeholder data_text.

(** The dictionary [get_data_summary] returns; [numeric_summary] is the key
    that is present only when there is a numeric column. *)
Record Summary (pyfloat : Type) : Type := mkSummary {
  s_rows : Z;
  s_columns : Z;
  s_column_types : dict string;
  s_missing_values : dict Z;
  s_memory_usage : Z;
  s_numeric_summary : option (dict (dict pyfloat))
}.
Arguments mkSummary {pyfloat} _ _ _ _ _ _.
Arguments s_rows {pyfloat} _.
Arguments s_columns {pyfloat} _.
Arguments s_column_types {pyfloat} _.
Arguments s_missing_values {pyfloat} _.
Arguments s_memory_usage {pyfloat} _.
Arguments s_numeric_summary {pyfloat} _.

Section Utils.

Context {source pyfloat : Type} (pd : Pandas source pyfloat).

(** [get_data_summary(df)] *)
Definition get_data_summary (df : DataFrame) : Summary pyfloat :=
  let numeric_cols := number_columns pd df in
  {| s_rows := len df;
     s_columns := Z.of_nat (List.length (columns df));
     s_column_types := dict_of_list (combine (columns df) (dtypes pd df));
     s_missing_values := dict_of_list (isnull_sum df);
     s_memory_usage := memory_usage pd df;
     s_numeric_summary :=
       if 0 <? Z.of_nat (List.length numeric_cols)
       then Some (describe pd df numeric_cols)
       else None |}.

Definition type_line (kv : string * string) : string :=
  "  " ++ fst kv ++ ": " ++ snd kv.

Definition missing_lines (kv : string * Z) : list string :=
  if 0 <? snd kv then ["  " ++ fst kv ++ ": " ++ str_of_Z (snd kv)] else [].

Definition stat_lines (kv : string * pyfloat) : list string :=
  if notna pd (snd kv)
  then ["    " ++ fst kv ++ ": " ++ format_4f pd (snd kv)]
  else [].

Definition numeric_lines (kv : string * dict pyfloat) : list string :=
  ("  " ++ fst kv ++ ":") :: flat_map stat_lines (snd kv).

(** [format_summary(summary)] *)
Definition format_summary (summary : Summary pyfloat) : string :=
  let head_lines :=
    [ "=== DATA SUMMARY ===";
      "Rows: " ++ format_thousands (s_rows summary);
      "Columns: " ++ str_of_Z (s_columns summary);
      "Memory Usage: " ++ format_kb pd (s_memory_usage summary) ++ " KB";
      "";
      "Column Types:" ] in
  let numeric :=
    match s_numeric_summary summary with
    | Some stats =>
        ([ ""; "Numeric Column Statistics:" ] ++ flat_map numeric_lines stats)%list
    | None => []
    end in
  let lines :=
    (head_lines
       ++ map type_line (s_column_types summary)
       ++ [ ""; "Missing Values:" ]
       ++ flat_map missing_lines (s_missing_values summary)
       ++ numeric)%list in
  join nl lines.

End Utils.

(* ===================================================================== *)
(** ** [src/converter.py]                                                 *)
(* ===================================================================== *)

(** The [sheet_names] argument: [None], one name, or a list of names. *)
Inductive sheet_selector : Type :=
| AllSheets
| OneSheet (name : string)
| SheetList (names : list string).

Section Converter.

Context {source pyfloat : Type} (pd : Pandas source pyfloat).

Definition warning (sheet : string) (e : exn) : string :=
  "Warning: Could not read sheet '" ++ sheet ++ "': " ++ str_exn e.

(** The loop over a list of names (lines 55-65 and 155-165): a sheet that
    cannot be read is reported on standard output and left out. *)
Fixpoint read_each (file_path : source) (sheet_names : list string)
    (all_sheets : dict DataFrame) (printed : list string)
  : dict DataFrame * list string :=
  match sheet_names with
  | [] => (all_sheets, printed)
  | sheet :: rest =>
      match read_excel pd file_path sheet false with
      | Ok df => read_each file_path rest (dict_set sheet df all_sheets) printed
      | Raise e =>
          read_each file_path rest all_sheets (append printed (warning sheet e))
      end
  end.

(** Reading the workbook (lines 37-65 of [excel_to_formatted_text], repeated
    at lines 140-165 of [excel_to_chunked_text]); every call passes
    [na_filter=False]. *)
Definition read_sheets (file_path : source) (sheet_names : sheet_selector)
  : run (dict DataFrame) :=
  match sheet_names with
  | AllSheets => mkRun [] (read_excel_all pd file_path false)
  | OneSheet name =>
      mkRun [] (df <- read_excel pd file_path name false ;; Ok [(name, df)])
  | SheetList names =>
      let (all_sheets, printed) := read_each file_path names [] [] in
      mkRun printed (Ok all_sheets)
  end.

(** The [if]/[elif] chain on [output_format.lower()] (lines 81-89 and
    184-191). *)
Definition convert_to_format (output_format : string) (df : DataFrame)
  : result string :=
  if String.eqb (str_lower pd output_format) "csv" then Ok (to_csv pd df)
  else if String.eqb (str_lower pd output_format) "json" then Ok (to_json pd df)
  else if String.eqb (str_lower pd output_format) "markdown" then Ok (to_markdown pd df)
  else Raise (ValueError ("Unsupported output format: " ++ output_format)).

Definition sheet_header (sheet_name : string) : string :=
  nl ++ "=== SHEET: " ++ sheet_name ++ " ===" ++ nl.

(** The loop over [all_sheets.items()] of [excel_to_formatted_text]
    (lines 73-93). *)
Fixpoint format_sheets (output_format : string)
    (items : list (string * DataFrame)) (all_formatted_data : list string)
  : result (list string) :=
  match items with
  | [] => Ok all_formatted_data
  | (sheet_name, df) :: rest =>
      if empty df then format_sheets output_format rest all_formatted_data
      else
        let df := fillna "" df in
        formatted_data <- convert_to_format output_format df ;;
        format_sheets output_format rest
          (append all_formatted_data (sheet_header sheet_name ++ formatted_data))
  end.

(** [next((df for df in all_sheets.values() if not df.empty), None)] *)
Definition first_non_empty (all_sheets : dict DataFrame) : option DataFrame :=
  find (fun df => negb (empty df)) (dict_values all_sheets).

Definition summary_text (df : DataFrame) : string :=
  format_summary pd (get_data_summary pd df).

(** Lines 67-110: what [excel_to_formatted_text] does with the sheets it
    has read. *)
Definition formatted_body (all_sheets : dict DataFrame)
    (output_format prompt_template : string) (include_summary : bool)
  : result string :=
  if dict_is_empty all_sheets
  then Raise (ValueError "No sheets could be read from the Excel file")
  else
    all_formatted_data <- format_sheets output_format all_sheets [] ;;
    let combined_data := join (nl ++ nl) all_formatted_data in
    let combined_data :=
      if include_summary then
        match first_non_empty all_sheets with
        | Some first_df => summary_text first_df ++ nl ++ nl ++ combined_data
        | None => combined_data
        end
      else combined_data in
    Ok (format_prompt combined_data prompt_template).

(** [excel_to_formatted_text(file_path, sheet_names, output_format,
    chunk_size, prompt_template, include_summary, evaluate_formulas)].
    [chunk_size] and [evaluate_formulas] are accepted and not used. *)
Definition excel_to_formatted_text (file_path : source)
    (sheet_names : sheet_selector) (output_format : string) (chunk_size : Z)
    (prompt_template : string) (include_summary evaluate_formulas : bool)
  : run string :=
  let loaded := read_sheets file_path sheet_names in
  mkRun (stdout loaded)
    (try_except "Error converting Excel file: "
       (all_sheets <- outcome loaded ;;
        formatted_body all_sheets output_format prompt_template include_summary)).

(** In [excel_to_chunked_text] the name [chunk_df] is the target of the
    inner [for] (line 182), which makes it a local variable of the whole
    function body; the call [chunk_df(df, chunk_size)] at line 180 therefore
    reads that local and not the function imported from [utils].  The local
    is unbound until the inner loop has assigned it, and holds a table
    afterwards. *)
Definition call_local_chunk_df (chunk_df_local : option DataFrame)
    (df : DataFrame) (chunk_size : Z) : result (list DataFrame) :=
  match chunk_df_local with
  | None => Raise (UnboundLocalError "chunk_df")
  | Some _ => Raise (TypeError "'DataFrame' object is not callable")
  end.

Definition chunk_header (sheet_name : string) (i total : Z) : string :=
  nl ++ "=== SHEET: " ++ sheet_name ++ " - CHUNK " ++ str_of_Z (i + 1) ++ "/"
     ++ str_of_Z total ++ " ===" ++ nl.

(** The inner loop over [enumerate(df_chunks)] (lines 182-199); it carries
    the list [chunks] and the local [chunk_df]. *)
Fixpoint format_chunks (output_format prompt_template sheet_name : string)
    (total : Z) (items : list (Z * DataFrame))
    (chunks : list string) (chunk_df_local : option DataFrame)
  : result (list string * option DataFrame) :=
  match items with
  | [] => Ok (chunks, chunk_df_local)
  | (i, chunk) :: rest =>
      formatted_chunk <- convert_to_format output_format chunk ;;
      let chunk_text := chunk_header sheet_name i total ++ formatted_chunk in
      let final_chunk := format_prompt chunk_text prompt_template in
      format_chunks output_format prompt_template sheet_name total rest
        (append chunks final_chunk) (Some chunk)
  end.

(** The loop over [all_sheets.items()] of [excel_to_chunked_text]
    (lines 172-199). *)
Fixpoint chunk_sheets (output_format : string) (chunk_size : Z)
    (prompt_template : string) (items : list (string * DataFrame))
    (chunks : list string) (chunk_df_local : option DataFrame)
  : result (list string * option DataFrame) :=
  match items with
  | [] => Ok (chunks, chunk_df_local)
  | (sheet_name, df) :: rest =>
      if empty df
      then chunk_sheets output_format chunk_size prompt_template rest
             chunks chunk_df_local
      else
        let df := fillna "" df in
        df_chunks <- call_local_chunk_df chunk_df_local df chunk_size ;;
        st <- format_chunks output_format prompt_template sheet_name
                (Z.of_nat (List.length df_chunks)) (enumerate df_chunks)
                chunks chunk_df_local ;;
        chunk_sheets output_format chunk_size prompt_template rest
          (fst st) (snd st)
  end.

(** Lines 167-210: what [excel_to_chunked_text] does with the sheets it has
    read. *)
Definition chunked_body (all_sheets : dict DataFrame) (output_format : string)
    (chunk_size : Z) (prompt_template : string) (include_summary : bool)
  : result (list string) :=
  if dict_is_empty all_sheets
  then Raise (ValueError "No sheets could be read from the Excel file")
  else
    st <- chunk_sheets output_format chunk_size prompt_template all_sheets
            [] None ;;
    let chunks := fst st in
    if include_summary && negb (Nat.eqb (List.length chunks) 0) then
      match first_non_empty all_sheets with
      | Some first_df =>
          Ok (format_prompt (summary_text first_df) prompt_template :: chunks)
      | None => Ok chunks
      end
    else Ok chunks.

(** [excel_to_chunked_text(file_path, sheet_names, output_format,
    chunk_size, prompt_template, include_summary)] *)
Definition excel_to_chunked_text (file_path : source)
    (sheet_names : sheet_selector) (output_format : string) (chunk_size : Z)
    (prompt_template : string) (include_summary : bool)
  : run (list string) :=
  let loaded := read_sheets file_path sheet_names in
  mkRun (stdout loaded)
    (try_except "Error converting Excel file to chunks: "
       (all_sheets <- outcome loaded ;;
        chunked_body all_sheets output_format chunk_size prompt_template
          include_summary)).

End Converter.

(* ===================================================================== *)
(** ** A small executable instance of the interface                       *)
(* ===================================================================== *)

(** A workbook held in memory: its sheets in declared order, each cell
    either blank or holding a value.  Reading follows what pandas documents
    for [na_filter]: a blank cell is read as the empty string, and only
    with missing-value detection switched on is the empty string then turned
    into a null; the other markers pandas can detect are not modelled,
    since the code never asks for detection.  The renderers are simplified
    stand-ins (no quoting, no column alignment, no statistics); they only
    serve to run the pipeline on concrete workbooks.  Every theorem further
    down is proved for an arbitrary [Pandas]. *)
Module Demo.

Inductive file_cell : Type :=
| Blank
| Stored (c : cell).

Record sheet : Type := mkSheet {
  header : list string;
  body : list (list file_cell)
}.

Definition workbook : Type := list (string * sheet).

Definition load_cell (na_filter : bool) (c : file_cell) : cell :=
  match c with
  | Blank => if na_filter then NaN else Text ""
  | Stored (Text "") => if na_filter then NaN else Text ""
  | Stored v => v
  end.

Definition load_sheet (na_filter : bool) (sh : sheet) : DataFrame :=
  {| columns := header sh;
     rows := map (map (load_cell na_filter)) (body sh) |}.

Fixpoint lookup_sheet (name : string) (wb : workbook) : option sheet :=
  match wb with
  | [] => None
  | (n, sh) :: wb' => if String.eqb n name then Some sh else lookup_sheet name wb'
  end.

Definition demo_read_excel (wb : workbook) (name : string) (na_filter : bool)
  : result DataFrame :=
  match lookup_sheet name wb with
  | Some sh => Ok (load_sheet na_filter sh)
  | None => Raise (ValueError ("Worksheet named '" ++ name ++ "' not found"))
  end.

Definition demo_read_excel_all (wb : workbook) (na_filter : bool)
  : result (dict DataFrame) :=
  Ok (dict_of_list (map (fun kv => (fst kv, load_sheet na_filter (snd kv))) wb)).

(** A table written to a sheet, as [df.to_excel(index=False)] stores it. *)
Definition store (df : DataFrame) : sheet :=
  {| header := columns df;
     body := map (map (fun c => match c with NaN => Blank | _ => Stored c end))
                 (rows df) |}.

Definition cell_text (c : cell) : string :=
  match c with
  | NaN => ""
  | Text s => s
  | Int z => str_of_Z z
  | Float bits => str_of_Z bits
  | Boolean true => "True"
  | Boolean false => "False"
  | Date ns => str_of_Z ns
  end.

Definition csv_line (fields : list string) : string := join "," fields ++ nl.

Definition demo_to_csv (df : DataFrame) : string :=
  csv_line (columns df)
    ++ String.concat "" (map (fun r => csv_line (map cell_text r)) (rows df)).

Definition md_line (fields : list string) : string :=
  "| " ++ join " | " fields ++ " |".

Definition demo_to_markdown (df : DataFrame) : string :=
  join nl (md_line (columns df)
             :: md_line (map (fun _ => "---") (columns df))
             :: map (fun r => md_line (map cell_text r)) (rows df)).

Definition json_record (cols : list string) (r : list cell) : string :=
  "{" ++ join ", " (map (fun kv => fst kv ++ ": " ++ cell_text (snd kv))
                        (combine cols r)) ++ "}".

Definition demo_to_json (df : DataFrame) : string :=
  "[" ++ join ", " (map (json_record (columns df)) (rows df)) ++ "]".

Definition demo_dtype (cells : list cell) : string :=
  if forallb (fun c => match c with Int _ => true | _ => false end) cells
  then "int64" else "object".

Definition demo_dtypes (df : DataFrame) : list string :=
  map (fun j => demo_dtype (column_cells df j)) (seq 0 (List.length (columns df))).

Definition pandas : Pandas workbook Z :=
  {| read_excel_all := demo_read_excel_all;
     read_excel := demo_read_excel;
     to_csv := demo_to_csv;
     to_json := demo_to_json;
     to_markdown := demo_to_markdown;
     dtypes := demo_dtypes;
     memory_usage := fun _ => 0;
     number_columns := fun _ => [];
     describe := fun _ _ => [];
     notna := fun _ => true;
     format_kb := str_of_Z;
     format_4f := str_of_Z;
     str_lower := lower;
     str_lower_ascii := fun _ _ => eq_refl |}.

(** The table of the repository's tests: four people, four columns. *)
Definition people : DataFrame :=
  {| columns := ["Name"; "Age"; "City"; "Salary"];
     rows := [ [Text "Alice"; Int 25; Text "New York"; Int 50000];
               [Text "Bob"; Int 30; Text "Los Angeles"; Int 60000];
               [Text "Charlie"; Int 35; Text "Chicago"; Int 70000];
               [Text "Diana"; Int 28; Text "Boston"; Int 55000] ] |}.

(** [pd.DataFrame()] *)
Definition no_data : DataFrame := {| columns := []; rows := [] |}.

(** A table with one null cell in column [B]. *)
Definition with_gap : DataFrame :=
  {| columns := ["A"; "B"];
     rows := [ [Int 1; Text "x"]; [Int 2; NaN] ] |}.

(** A sheet whose cell in the second row of column [B] is blank, and the
    table it is read as with [na_filter=False]. *)
Definition gap_sheet : sheet :=
  {| header := ["A"; "B"];
     body := [ [Stored (Int 1); Stored (Text "x")]; [Stored (Int 2); Blank] ] |}.

Definition gap_loaded : DataFrame :=
  {| columns := ["A"; "B"];
     rows := [ [Int 1; Text "x"]; [Int 2; Text ""] ] |}.

Definition test_book : workbook :=
  [("Sheet1", store people); ("Sheet2", store people)].

Definition empty_book : workbook := [("EmptySheet", store no_data)].

Definition gap_book : workbook := [("Data", gap_sheet)].

(** A sheet whose cell in the second row of column [B] holds a value that
    pandas reads as NaN before any missing-value detection (an error cell
    such as [#DIV/0!]): it is null in the loaded table whatever [na_filter]
    is, and the sheet is read as [with_gap]. *)
Definition null_sheet : sheet :=
  {| header := ["A"; "B"];
     body := [ [Stored (Int 1); Stored (Text "x")];
               [Stored (Int 2); Stored NaN] ] |}.

Definition null_book : workbook := [("Data", null_sheet)].

Definition default_template : string := "Analyze this data: [formatted_data]".

End Demo.

(* ===================================================================== *)
(** ** Vocabulary of the statements                                       *)
(* ===================================================================== *)

(** [sub] occurs in [s] at some position. *)
Definition occurs (sub s : string) : Prop :=
  exists before after, s = before ++ sub ++ after.

(** [sub in s] *)
Fixpoint contains (sub s : string) : bool :=
  String.prefix sub s
  || match s with
     | EmptyString => false
     | String _ s' => contains sub s'
     end.

Fixpoint mem_char (c : ascii) (s : string) : bool :=
  match s with
  | EmptyString => false
  | String c' s' => if ascii_dec c c' then true else mem_char c s'
  end.

(** The format names the [if]/[elif] chain accepts. *)
Definition supported_formats : list string := ["csv"; "json"; "markdown"].

Definition is_supported {source pyfloat : Type} (pd : Pandas source pyfloat)
    (output_format : string) : bool :=
  existsb (String.eqb (str_lower pd output_format)) supported_formats.

(** The text each [except] clause puts in front of the original message. *)
Definition formatted_prefix : string := "Error converting Excel file: ".
Definition chunked_prefix : string := "Error converting Excel file to chunks: ".

(** The error conditions of the specification, as the exceptions that reach
    the caller for them. *)
Definition NoSheetsLoaded (prefix : string) : exn :=
  Exception (prefix ++ "No sheets could be read from the Excel file").

Definition UnsupportedFormat (prefix output_format : string) : exn :=
  Exception (prefix ++ "Unsupported output format: " ++ output_format).

(** The sheets a conversion renders: those that are not [empty]. *)
Definition non_empty_sheets (all_sheets : dict DataFrame) : dict DataFrame :=
  filter (fun kv => negb (empty (snd kv))) all_sheets.

(** The block [excel_to_formatted_text] emits for one sheet. *)
Definition sheet_block (render : DataFrame -> string)
    (kv : string * DataFrame) : string :=
  sheet_header (fst kv) ++ render (fillna "" (snd kv)).

(** One step of the loop over a list of names: the sheets kept, and the
    lines printed. *)
Definition keep_readable {source pyfloat : Type} (pd : Pandas source pyfloat)
    (file_path : source) (all_sheets : dict DataFrame) (sheet : string)
  : dict DataFrame :=
  match read_excel pd file_path sheet false with
  | Ok df => dict_set sheet df all_sheets
  | Raise _ => all_sheets
  end.

Definition warning_for {source pyfloat : Type} (pd : Pandas source pyfloat)
    (file_path : source) (sheet : string) : list string :=
  match read_excel pd file_path sheet false with
  | Ok _ => []
  | Raise e => [warning sheet e]
  end.

(* ===================================================================== *)
(** ** The rest of [src/utils.py] and [src/converter.py]                  *)
(* ===================================================================== *)

(** What [detect_sheets] and [validate_excel_file] ask of pandas. *)
Record Workbooks (source : Type) : Type := mkWorkbooks {
  (** [pd.read_excel(f, nrows=1, engine='openpyxl')], for its success only *)
  read_excel_probe : source -> result unit;
  (** [pd.ExcelFile(f).sheet_names] *)
  excel_file_sheet_names : source -> result (list string)
}.
Arguments read_excel_probe {source} _ _.
Arguments excel_file_sheet_names {source} _ _.

(** [detect_sheets(file_path)] ([utils.py], lines 46-60) *)
Definition detect_sheets {source : Type} (wb : Workbooks source)
    (file_path : source) : result (list string) :=
  match excel_file_sheet_names wb file_path with
  | Ok sheet_names => Ok sheet_names
  | Raise e => Raise (ValueError ("Could not read Excel file: " ++ str_exn e))
  end.

(** [validate_excel_file(file_path)] ([converter.py], lines 216-230) *)
Definition validate_excel_file {source : Type} (wb : Workbooks source)
    (file_path : source) : bool :=
  match read_excel_probe wb file_path with
  | Ok _ => true
  | Raise _ => false
  end.

(* ===================================================================== *)
(** ** More of the Python runtime, for [src/cli.py]                       *)
(* ===================================================================== *)

(** What [s.upper()] does to ASCII text; the code's call of [.upper()] goes
    through [str_upper] of [Cli.Host]. *)
Definition upper_ascii (c : ascii) : ascii :=
  let n := nat_of_ascii c in
  if andb (Nat.leb 97 n) (Nat.leb n 122) then ascii_of_nat (n - 32) else c.

Fixpoint upper (s : string) : string :=
  match s with
  | EmptyString => EmptyString
  | String c s' => String (upper_ascii c) (upper s')
  end.

(** The ASCII characters [str.strip()] removes: tab to carriage return,
    the four separators 28 to 31, and the space.  [str.strip()] removes
    further white space outside ASCII (U+00A0, U+2003, U+3000 and others);
    the code's call of [.strip()] goes through [str_strip] of [Cli.Host],
    and [strip] below is what it does to ASCII text. *)
Definition is_space (c : ascii) : bool :=
  let n := nat_of_ascii c in
  (Nat.leb 9 n && Nat.leb n 13) || (Nat.leb 28 n && Nat.leb n 32).

Fixpoint lstrip (s : string) : string :=
  match s with
  | EmptyString => EmptyString
  | String c s' => if is_space c then lstrip s' else s
  end.

Fixpoint rstrip (s : string) : string :=
  match s with
  | EmptyString => EmptyString
  | String c s' =>
      match rstrip s' with
      | EmptyString => if is_space c then EmptyString else String c EmptyString
      | String _ _ as r => String c r
      end
  end.

(** [s.strip()] for ASCII text. *)
Definition strip (s : string) : string := rstrip (lstrip s).

(** [s.split(sep)] for a separator of one character. *)
Fixpoint split_on (sep : ascii) (s : string) : list string :=
  match s with
  | EmptyString => [EmptyString]
  | String c s' =>
      if Ascii.eqb c sep then EmptyString :: split_on sep s'
      else
        match split_on sep s' with
        | [] => [String c EmptyString]
        | p :: ps => String c p :: ps
        end
  end.

(** [d.get(k)] *)
Fixpoint dict_get {V : Type} (k : string) (d : dict V) : option V :=
  match d with
  | [] => None
  | (k', v) :: d' => if String.eqb k' k then Some v else dict_get k d'
  end.

Definition dict_keys {V : Type} (d : dict V) : list string := map fst d.

(* ===================================================================== *)
(** ** [src/cli.py]                                                       *)
(* ===================================================================== *)

Module Cli.

(** The namespace [parser.parse_args()] returns.  [sheets] is [None] when
    the option is absent; argparse has already turned [--chunk-size] into
    an [int]. *)
Record Args : Type := mkArgs {
  input_file : string;
  output : string;
  format : string;
  sheets : option string;
  chunk_size : Z;
  chunk : bool;
  summary : bool;
  prompt_template : string;
  evaluate_formulas : bool;
  list_sheets : bool;
  validate : bool;
  verbose : bool
}.

(** What [main] asks of the operating system and of the interpreter. *)
Record Host : Type := mkHost {
  (** [os.path.exists(path)] *)
  path_exists : string -> bool;
  (** [with open(path, "w", encoding="utf-8") as f: f.write(text)] *)
  write_text : string -> string -> result unit;
  (** [f"{len(text.encode('utf-8')) / 1024:.2f}"] *)
  size_kb : string -> string;
  (** [len(text)], the number of characters *)
  char_count : string -> Z;
  (** the lines [traceback.print_exc()] writes for the exception at hand *)
  traceback : exn -> list string;
  (** [s.upper()] *)
  str_upper : string -> string;
  (** [s.strip()] *)
  str_strip : string -> string
}.

(** How a run of the script ends: the lines printed on the two streams, the
    file it has written (path and text), and the exit status. *)
Record Process : Type := mkProcess {
  p_stdout : list string;
  p_stderr : list string;
  p_saved : option (string * string);
  p_exit : Z
}.

(** Line 135: [[s.strip() for s in args.sheets.split(",")]] *)
Definition parse_sheet_names (host : Host) (sheets : string) : list string :=
  map (str_strip host) (split_on ","%char sheets).

(** Lines 133-135; an absent or empty [--sheets] leaves [sheet_names] at
    [None]. *)
Definition sheet_names_of (host : Host) (sheets : option string)
  : sheet_selector :=
  match sheets with
  | None => AllSheets
  | Some EmptyString => AllSheets
  | Some s => SheetList (parse_sheet_names host s)
  end.

Definition sheets_given (sheets : option string) : bool :=
  match sheets with
  | None => false
  | Some EmptyString => false
  | Some _ => true
  end.

Definition when (b : bool) (lines : list string) : list string :=
  if b then lines else [].

(** The lines printed so far, and then some more. *)
Definition prints (printed lines : list string) : list string :=
  (printed ++ lines)%list.

(** Line 121: [f"  {i}. {sheet}"] *)
Definition numbered (item : Z * string) : string :=
  "  " ++ str_of_Z (fst item) ++ ". " ++ snd item.

Section Main.

Context {pyfloat : Type} (pd : Pandas string pyfloat)
        (wb : Workbooks string) (host : Host).

(** Lines 178-192: writing the result and reporting on it. *)
Definition save (a : Args) (printed : list string) (text : string) : Process :=
  match write_text host (output a) text with
  | Ok _ =>
      mkProcess
        (prints printed
           [ "💾 Output saved to: " ++ output a;
             "📏 File size: " ++ size_kb host text ++ " KB";
             "📝 Characters: " ++ format_thousands (char_count host text) ])
        [] (Some (output a, text)) 0
  | Raise e =>
      mkProcess printed ["Error saving output file: " ++ str_exn e] None 1
  end.

(** Lines 194-199: the handler of the outer [try]. *)
Definition conversion_failed (a : Args) (printed : list string) (e : exn)
  : Process :=
  mkProcess printed
    (("Error during conversion: " ++ str_exn e)
       :: when (verbose a) (traceback host e))
    None 1.

(** Lines 140-199. *)
Definition convert (a : Args) (printed : list string) : Process :=
  let sheet_names := sheet_names_of host (sheets a) in
  let printed :=
    prints printed
      (when (verbose a)
         ["🔄 Converting '" ++ input_file a ++ "' to " ++ str_upper host (format a)
            ++ " format..."]) in
  if chunk a then
    let printed :=
      prints printed
        (when (verbose a)
           ["📦 Using chunked processing with chunk size: "
              ++ str_of_Z (chunk_size a)]) in
    let r := excel_to_chunked_text pd (input_file a) sheet_names (format a)
               (chunk_size a) (prompt_template a) (summary a) in
    let printed := prints printed (stdout r) in
    match outcome r with
    | Ok chunks =>
        let text := join (nl ++ nl) chunks in
        let printed :=
          prints printed
            (when (verbose a)
               ["✅ Generated " ++ str_of_Z (Z.of_nat (List.length chunks))
                  ++ " chunks"]) in
        save a printed text
    | Raise e => conversion_failed a printed e
    end
  else
    let r := excel_to_formatted_text pd (input_file a) sheet_names (format a)
               (chunk_size a) (prompt_template a) (summary a)
               (evaluate_formulas a) in
    let printed := prints printed (stdout r) in
    match outcome r with
    | Ok text =>
        let printed :=
          prints printed
            (when (verbose a) ["✅ Conversion completed successfully"]) in
        save a printed text
    | Raise e => conversion_failed a printed e
    end.

(** [main()], from the parsed arguments on (lines 102-199).  [sys.exit]
    raises [SystemExit], which no [except Exception] clause catches; a run
    that reaches the end of [main] exits with status 0. *)
Definition main (a : Args) : Process :=
  if negb (path_exists host (input_file a)) then
    mkProcess []
      ["Error: Input file '" ++ input_file a ++ "' not found."] None 1
  else if negb (validate_excel_file wb (input_file a)) then
    mkProcess []
      ["Error: '" ++ input_file a ++ "' is not a valid Excel file."] None 1
  else
    let printed :=
      when (verbose a) ["✅ Valid Excel file: " ++ input_file a] in
    if list_sheets a then
      match detect_sheets wb (input_file a) with
      | Ok names =>
          mkProcess
            (prints printed
               (("Available sheets in '" ++ input_file a ++ "':")
                  :: map numbered (enumerate_from 1 names)))
            [] None 0
      | Raise e =>
          mkProcess printed ["Error listing sheets: " ++ str_exn e] None 1
      end
    else if validate a then
      mkProcess
        (prints printed
           ["✅ '" ++ input_file a ++ "' is a valid Excel file."])
        [] None 0
    else
      let printed :=
        prints printed
          (when (verbose a && sheets_given (sheets a))
             ["📋 Processing sheets: "
                ++ join ", "
                     (match sheets a with
                      | Some s => parse_sheet_names host s
                      | None => []
                      end)]) in
      convert a printed.

End Main.

End Cli.

(** The file named on the command line exists and passes validation. *)
Definition usable_input (wb : Workbooks string) (host : Cli.Host)
    (a : Cli.Args) : Prop :=
  Cli.path_exists host (Cli.input_file a) = true
  /\ validate_excel_file wb (Cli.input_file a) = true.

(** A host with two files: [book.xlsx] holds the workbook of the tests and
    [empty.xlsx] the workbook with one empty sheet; writing succeeds
    everywhere except under [/readonly/]. *)
Module DemoHost.

Definition book_path : string := "book.xlsx".
Definition empty_path : string := "empty.xlsx".

Definition open_book (path : string) : result Demo.workbook :=
  if String.eqb path book_path then Ok Demo.test_book
  else if String.eqb path empty_path then Ok Demo.empty_book
  else Raise (ValueError ("No such file or directory: '" ++ path ++ "'")).

Definition pandas : Pandas string Z :=
  {| read_excel_all := fun path na =>
       wbk <- open_book path ;; Demo.demo_read_excel_all wbk na;
     read_excel := fun path name na =>
       wbk <- open_book path ;; Demo.demo_read_excel wbk name na;
     to_csv := Demo.demo_to_csv;
     to_json := Demo.demo_to_json;
     to_markdown := Demo.demo_to_markdown;
     dtypes := Demo.demo_dtypes;
     memory_usage := fun _ => 0;
     number_columns := fun _ => [];
     describe := fun _ _ => [];
     notna := fun _ => true;
     format_kb := str_of_Z;
     format_4f := str_of_Z;
     str_lower := lower;
     str_lower_ascii := fun _ _ => eq_refl |}.

Definition workbooks : Workbooks string :=
  {| read_excel_probe := fun path => wbk <- open_book path ;; Ok tt;
     excel_file_sheet_names := fun path =>
       wbk <- open_book path ;; Ok (map fst wbk) |}.

Definition host : Cli.Host :=
  {| Cli.path_exists := fun path =>
       String.eqb path book_path || String.eqb path empty_path;
     Cli.write_text := fun path _ =>
       if String.prefix "/readonly/" path
       then Raise (ValueError ("Permission denied: '" ++ path ++ "'"))
       else Ok tt;
     Cli.size_kb := fun text => str_of_Z (Z.of_nat (String.length text));
     Cli.char_count := fun text => Z.of_nat (String.length text);
     Cli.traceback := fun _ => ["Traceback (most recent call last):"];
     Cli.str_upper := upper;
     Cli.str_strip := strip |}.

Definition args : Cli.Args :=
  {| Cli.input_file := book_path;
     Cli.output := "output.txt";
     Cli.format := "csv";
     Cli.sheets := None;
     Cli.chunk_size := 5000;
     Cli.chunk := false;
     Cli.summary := false;
     Cli.prompt_template := "Analyze this data: [formatted_data]";
     Cli.evaluate_formulas := false;
     Cli.list_sheets := false;
     Cli.validate := false;
     Cli.verbose := false |}.

Definition with_options (input_file : string) (list_sheets chunk verbose : bool)
  : Cli.Args :=
  {| Cli.input_file := input_file;
     Cli.output := Cli.output args;
     Cli.format := Cli.format args;
     Cli.sheets := Cli.sheets args;
     Cli.chunk_size := Cli.chunk_size args;
     Cli.chunk := chunk;
     Cli.summary := Cli.summary args;
     Cli.prompt_template := Cli.prompt_template args;
     Cli.evaluate_formulas := Cli.evaluate_formulas args;
     Cli.list_sheets := list_sheets;
     Cli.validate := Cli.validate args;
     Cli.verbose := verbose |}.

End DemoHost.

(* ===================================================================== *)
(** ** Chunking                                                           *)
(* ===================================================================== *)

Section SliceFacts.

Context {A : Type}.
Implicit Types (l : list A) (i size : Z).

Lemma slice_window l i size :
  0 <= i -> 0 < size ->
  slice l i (i + size) = firstn (Z.to_nat size) (skipn (Z.to_nat i) l).
Proof.
  intros Hi Hs. unfold slice, clamp_index.
  destruct (Z.ltb_spec i 0); [lia|].
  destruct (Z.ltb_spec (i + size) 0); [lia|].
  remember (Z.of_nat (List.length l)) as n eqn:Hn.
  destruct (Z.le_gt_cases i n) as [Hin | Hin].
  - rewrite (Z.min_l i n) by lia.
    destruct (Z.le_gt_cases (i + size) n) as [Hjn | Hjn].
    + rewrite Z.min_l by lia. f_equal. lia.
    + rewrite Z.min_r by lia.
      rewrite !firstn_all2; try reflexivity; rewrite length_skipn; lia.
  - rewrite !Z.min_r by lia.
    rewrite (skipn_all2 (n:=Z.to_nat n)), (skipn_all2 (n:=Z.to_nat i)) by lia.
    now rewrite !firstn_nil.
Qed.

Lemma slice_then_rest l i size :
  0 <= i -> 0 < size ->
  (slice l i (i + size) ++ skipn (Z.to_nat (i + size)) l)%list
  = skipn (Z.to_nat i) l.
Proof.
  intros Hi Hs. rewrite slice_window by assumption.
  replace (Z.to_nat (i + size)) with (Z.to_nat size + Z.to_nat i)%nat by lia.
  rewrite <- skipn_skipn. apply firstn_skipn.
Qed.

Lemma slice_length l i size :
  0 <= i <= Z.of_nat (List.length l) -> 0 < size ->
  Z.of_nat (List.length (slice l i (i + size)))
  = Z.min size (Z.of_nat (List.length l) - i).
Proof.
  intros Hi Hs. rewrite slice_window by lia.
  rewrite length_firstn, length_skipn. lia.
Qed.

End SliceFacts.

Lemma range_up_done fuel i stop step :
  stop <= i -> range_up fuel i stop step = [].
Proof.
  intros H. destruct fuel; simpl; [reflexivity|].
  destruct (Z.ltb_spec i stop); [lia | reflexivity].
Qed.

(** The loop of [range] stops by its own test: more fuel changes nothing. *)
Lemma range_up_more_fuel fuel : forall extra i stop step,
  0 < step -> stop - i <= Z.of_nat fuel ->
  range_up (fuel + extra) i stop step = range_up fuel i stop step.
Proof.
  induction fuel as [|fuel IH]; intros extra i stop step Hstep Hfuel.
  - simpl. rewrite !range_up_done by lia. reflexivity.
  - simpl. destruct (Z.ltb_spec i stop); [|reflexivity].
    f_equal. apply IH; lia.
Qed.

Lemma range_up_length fuel : forall i stop step,
  0 < step -> stop - i <= Z.of_nat fuel ->
  List.length (range_up fuel i stop step)
  = Z.to_nat ((stop - i + step - 1) / step).
Proof.
  induction fuel as [|fuel IH]; intros i stop step Hstep Hfuel.
  - simpl. assert ((stop - i + step - 1) / step < 1)
      by (apply Z.div_lt_upper_bound; lia). lia.
  - simpl. destruct (Z.ltb_spec i stop) as [Hlt | Hge].
    + simpl. rewrite IH by lia.
      replace (stop - i + step - 1) with ((stop - i - 1) + 1 * step) by lia.
      rewrite Z.div_add by lia.
      replace (stop - (i + step) + step - 1) with (stop - i - 1) by lia.
      assert (0 <= (stop - i - 1) / step) by (apply Z.div_pos; lia). lia.
    + assert ((stop - i + step - 1) / step < 1)
        by (apply Z.div_lt_upper_bound; lia).
      simpl. lia.
Qed.

Section ChunkLoop.

Variable df : DataFrame.
Variable chunk_size : Z.
Hypothesis chunk_size_pos : 0 < chunk_size.

Local Abbreviation chunk := (chunk_at df chunk_size).

Lemma chunk_at_len i :
  0 <= i <= len df -> len (chunk i) = Z.min chunk_size (len df - i).
Proof.
  intros Hi. unfold chunk_at, len, iloc. cbn [rows].
  apply slice_length; [exact Hi | exact chunk_size_pos].
Qed.

Lemma chunk_loop_concat fuel : forall i,
  0 <= i -> len df - i <= Z.of_nat fuel ->
  List.concat (map rows (map chunk (range_up fuel i (len df) chunk_size)))
  = skipn (Z.to_nat i) (rows df).
Proof.
  induction fuel as [|fuel IH]; intros i Hi Hfuel.
  - simpl. unfold len in Hfuel. rewrite skipn_all2 by lia. reflexivity.
  - simpl. destruct (Z.ltb_spec i (len df)) as [Hlt | Hge].
    + simpl. rewrite IH by lia.
      unfold chunk_at, iloc. simpl.
      apply slice_then_rest; assumption.
    + simpl. unfold len in Hge. rewrite skipn_all2 by lia. reflexivity.
Qed.

Lemma chunk_loop_sizes fuel : forall i,
  0 <= i < len df -> len df - i <= Z.of_nat fuel ->
  exists init final,
    map chunk (range_up fuel i (len df) chunk_size) = (init ++ [final])%list
    /\ Forall (fun c => len c = chunk_size) init
    /\ 1 <= len final <= chunk_size.
Proof.
  induction fuel as [|fuel IH]; intros i Hi Hfuel; [lia|].
  simpl. destruct (Z.ltb_spec i (len df)) as [_ | Hge]; [|lia].
  destruct (Z.lt_ge_cases (i + chunk_size) (len df)) as [Hmore | Hlast].
  - destruct (IH (i + chunk_size)) as (init & final & Heq & Hinit & Hfinal);
      [lia | lia |].
    exists (chunk i :: init), final. simpl. rewrite Heq.
    repeat split; try tauto.
    constructor; [|exact Hinit]. rewrite chunk_at_len by lia. lia.
  - rewrite range_up_done by lia.
    exists [], (chunk i). simpl.
    split; [reflexivity|]. split; [constructor|].
    rewrite chunk_at_len by lia. lia.
Qed.

Lemma chunk_loop_columns (starts : list Z) :
  Forall (fun c => columns c = columns df) (map chunk starts).
Proof.
  induction starts; simpl; constructor; auto.
Qed.

End ChunkLoop.

(** How [chunk_df] runs for a positive [chunk_size]. *)
Lemma chunk_df_small df chunk_size :
  len df <= chunk_size -> chunk_df df chunk_size = Ok [df].
Proof.
  intros H. unfold chunk_df.
  destruct (Z.leb_spec (len df) chunk_size); [reflexivity | lia].
Qed.

Lemma chunk_df_large df chunk_size :
  0 < chunk_size < len df ->
  chunk_df df chunk_size
  = Ok (map (chunk_at df chunk_size)
            (range_up (Z.to_nat (len df)) 0 (len df) chunk_size)).
Proof.
  intros H. unfold chunk_df, range.
  destruct (Z.leb_spec (len df) chunk_size); [lia|].
  destruct (Z.eqb_spec chunk_size 0); [lia|].
  destruct (Z.ltb_spec 0 chunk_size); [|lia].
  simpl. now rewrite Z.sub_0_r.
Qed.

(** C1 (as amended): for a positive [chunk_size], [chunk_df] returns chunks
    whose rows, concatenated in order, are exactly the rows of the table;
    every chunk keeps the table's columns; every chunk but the last has
    exactly [chunk_size] rows; the last chunk has between 1 and [chunk_size]
    rows when the table has rows, and is the row-less table itself when it
    has none; and the number of chunks is the ceiling of
    [len df / chunk_size], or 1 for a table without rows. *)
Theorem chunk_df_partitions_rows (df : DataFrame) (chunk_size : Z) :
  0 < chunk_size ->
  exists init final,
    chunk_df df chunk_size = Ok (init ++ [final])%list
    /\ List.concat (map rows (init ++ [final])) = rows df
    /\ Forall (fun c => columns c = columns df) (init ++ [final])
    /\ Forall (fun c => len c = chunk_size) init
    /\ (if len df =? 0 then len final = 0 else 1 <= len final <= chunk_size)
    /\ Z.of_nat (List.length (init ++ [final]))
       = (if len df =? 0 then 1 else (len df + chunk_size - 1) / chunk_size)
    /\ (0 < len df ->
        (Z.of_nat (List.length (init ++ [final])) - 1) * chunk_size < len df
        <= Z.of_nat (List.length (init ++ [final])) * chunk_size).
Proof.
  intros Hpos.
  assert (Hlen : 0 <= len df) by (unfold len; lia).
  destruct (Z.le_gt_cases (len df) chunk_size) as [Hsmall | Hlarge].
  - exists [], df. rewrite chunk_df_small by assumption.
    change ([] ++ [df])%list with [df].
    change (Z.of_nat (List.length [df])) with 1.
    split; [reflexivity|]. split; [apply app_nil_r|].
    split; [repeat constructor|]. split; [constructor|].
    destruct (Z.eqb_spec (len df) 0) as [Hz | Hnz].
    + repeat split; lia.
    + assert ((len df + chunk_size - 1) / chunk_size = 1)
        by (symmetry; apply (Z.div_unique _ _ 1 (len df - 1)); lia).
      repeat split; lia.
  - rewrite chunk_df_large by lia.
    destruct (chunk_loop_sizes df chunk_size Hpos (Z.to_nat (len df)) 0)
      as (init & final & Heq & Hinit & Hfinal); [lia | lia |].
    exists init, final. unfold chunk_df in *.
    rewrite <- Heq.
    split; [reflexivity|].
    split; [rewrite chunk_loop_concat by lia; reflexivity|].
    split; [apply chunk_loop_columns|].
    split; [exact Hinit|].
    rewrite length_map, range_up_length by lia.
    rewrite Z.sub_0_r.
    set (q := (len df + chunk_size - 1) / chunk_size).
    assert (Hq : 0 <= q) by (apply Z.div_pos; lia).
    assert (Hdm := Z.div_mod (len df + chunk_size - 1) chunk_size ltac:(lia)).
    assert (Hmod := Z.mod_pos_bound (len df + chunk_size - 1) chunk_size Hpos).
    fold q in Hdm.
    destruct (Z.eqb_spec (len df) 0) as [Hz | Hnz]; [lia|].
    rewrite Z2Nat.id by lia.
    repeat split; try lia; nia.
Qed.

(** The four-row table of the tests cut by 3: two chunks, the first of 3 rows. *)
Lemma chunk_df_partitions_rows_witness :
  0 < 3
  /\ exists init final,
       chunk_df Demo.people 3 = Ok (init ++ [final])%list
       /\ List.concat (map rows (init ++ [final])) = rows Demo.people
       /\ Forall (fun c => len c = 3) init
       /\ Z.of_nat (List.length (init ++ [final])) = 2.
Proof.
  split; [lia|].
  destruct (chunk_df_partitions_rows Demo.people 3 ltac:(lia))
    as (init & final & Hrun & Hcat & _ & Hinit & _ & Hcount & _).
  exists init, final. repeat split; assumption.
Defined.

(** C1, as stated, fails on a table without rows: [chunk_df] returns that
    table as its only chunk, so the last chunk has 0 rows, not 1 to 5. *)
Lemma chunk_df_no_rows_last_chunk_has_no_rows :
  0 < 5
  /\ chunk_df Demo.no_data 5 = Ok [Demo.no_data]
  /\ ~ (exists init final,
          chunk_df Demo.no_data 5 = Ok (init ++ [final])%list
          /\ 1 <= len final <= 5).
Proof.
  split; [lia|]. split; [reflexivity|].
  intros (init & final & Hrun & Hlen).
  change (chunk_df Demo.no_data 5) with (Ok [Demo.no_data]) in Hrun.
  injection Hrun as Hrun.
  apply (app_inj_tail [] init Demo.no_data final) in Hrun as [_ <-].
  vm_compute in Hlen. destruct Hlen as [Hlen _]. now apply Hlen.
Qed.

(** C2 (as amended): [chunk_df] does not check its [chunk_size].  For a
    negative [chunk_size] it returns the empty list of chunks; for
    [chunk_size = 0] it returns the table as its only chunk when the table
    has no rows, and otherwise fails with the [ValueError] that
    [range(0, len(df), 0)] raises. *)
Theorem chunk_df_non_positive_size (df : DataFrame) (chunk_size : Z) :
  chunk_size <= 0 ->
  chunk_df df chunk_size
  = if chunk_size <? 0 then Ok []
    else if len df =? 0 then Ok [df]
    else Raise (ValueError "range() arg 3 must not be zero").
Proof.
  intros Hsize.
  assert (Hlen : 0 <= len df) by (unfold len; lia).
  unfold chunk_df, range.
  destruct (Z.ltb_spec chunk_size 0) as [Hneg | Hzero].
  - destruct (Z.leb_spec (len df) chunk_size); [lia|].
    destruct (Z.eqb_spec chunk_size 0); [lia|].
    destruct (Z.ltb_spec 0 chunk_size); [lia|].
    replace (Z.to_nat (0 - len df)) with 0%nat by lia. reflexivity.
  - assert (chunk_size = 0) by lia. subst chunk_size.
    destruct (Z.eqb_spec (len df) 0) as [Hz | Hnz].
    + destruct (Z.leb_spec (len df) 0); [reflexivity | lia].
    + destruct (Z.leb_spec (len df) 0); [lia | reflexivity].
Qed.

(** A zero [chunk_size] on a table with rows. *)
Lemma chunk_df_non_positive_size_witness :
  0 <= 0
  /\ chunk_df Demo.people 0
     = Raise (ValueError "range() arg 3 must not be zero").
Proof.
  split; [lia|].
  exact (chunk_df_non_positive_size Demo.people 0 ltac:(lia)).
Defined.

(** C2, as stated, fails for a negative bound: the call returns a list of
    chunks (the empty one) instead of failing. *)
Lemma chunk_df_negative_size_returns :
  -1 <= 0 /\ chunk_df Demo.people (-1) = Ok [].
Proof. split; [lia | reflexivity]. Qed.

(* ===================================================================== *)
(** ** Template rendering                                                 *)
(* ===================================================================== *)

Section StringFacts.

Implicit Types (s t u p : string) (c : ascii).

Lemma sapp_assoc s t u : (s ++ t) ++ u = s ++ t ++ u.
Proof. induction s; simpl; congruence. Qed.

Lemma sapp_empty_r s : s ++ "" = s.
Proof. induction s; simpl; congruence. Qed.

Lemma prefix_app p s : String.prefix p (p ++ s) = true.
Proof.
  induction p as [|c p IH]; simpl; [now destruct s|].
  destruct (ascii_dec c c); [exact IH | congruence].
Qed.

Lemma prefix_split p : forall s,
  String.prefix p s = true -> exists rest, s = p ++ rest.
Proof.
  induction p as [|c p IH]; intros s H.
  - exists s. reflexivity.
  - destruct s as [|c' s]; simpl in H; [discriminate|].
    destruct (ascii_dec c c'); [|discriminate]. subst c'.
    destruct (IH s H) as [rest ->]. exists rest. reflexivity.
Qed.

(** A prefix of [u ++ t] either lies within [u] or runs over its end. *)
Lemma prefix_over_app u : forall p t,
  String.prefix p (u ++ t) = true ->
  String.prefix p u = true
  \/ exists p2, p = u ++ p2 /\ String.prefix p2 t = true.
Proof.
  induction u as [|c u IH]; intros p t H.
  - right. exists p. split; [reflexivity | exact H].
  - destruct p as [|c' p]; [left; reflexivity|].
    simpl in H |- *. destruct (ascii_dec c' c); [|discriminate]. subst c'.
    destruct (IH p t H) as [Hin | (p2 & -> & Hp2)]; [left; exact Hin|].
    right. exists p2. split; [reflexivity | exact Hp2].
Qed.

Lemma mem_char_app c u t : mem_char c (u ++ String c t) = true.
Proof.
  induction u as [|c' u IH]; simpl.
  - destruct (ascii_dec c c); congruence.
  - destruct (ascii_dec c c'); [reflexivity | exact IH].
Qed.

Lemma occurs_here p s : String.prefix p s = true -> occurs p s.
Proof.
  intros H. destruct (prefix_split p s H) as [rest ->].
  exists "", rest. reflexivity.
Qed.

Lemma occurs_later p c s : occurs p s -> occurs p (String c s).
Proof.
  intros (a & b & ->). exists (String c a), b. reflexivity.
Qed.

Lemma occurs_cons_inv p c s :
  occurs p (String c s) -> String.prefix p (String c s) = true \/ occurs p s.
Proof.
  intros (a & b & H). destruct a as [|c' a].
  - left. simpl in H. rewrite H. apply prefix_app.
  - right. simpl in H. injection H as _ ->. exists a, b. reflexivity.
Qed.

Lemma occurs_suffix p u s : occurs p s -> occurs p (u ++ s).
Proof.
  intros H. induction u; simpl; [exact H | now apply occurs_later].
Qed.

End StringFacts.

(** Facts about [replace] for a non-empty [old] whose first character does
    not occur again in it, so that two occurrences of [old] never overlap. *)
Section ReplaceFacts.

Variables (c0 : ascii) (old' new : string).
Hypothesis first_char_unique : mem_char c0 old' = false.

Local Abbreviation old := (String c0 old').
Local Abbreviation rep s := (replace s (String c0 old') new).

Lemma rep_eq s : rep s = replace_from old new 0 s.
Proof. reflexivity. Qed.

Lemma replace_from_skip (u : string) : forall s,
  replace_from old new (String.length u) (u ++ s) = replace_from old new 0 s.
Proof.
  induction u as [|c u IH]; intros s; simpl.
  - destruct s; reflexivity.
  - apply IH.
Qed.

Lemma rep_empty : rep "" = "".
Proof. reflexivity. Qed.

Lemma rep_match s : rep (old ++ s) = new ++ rep s.
Proof.
  rewrite !rep_eq.
  assert (E : old ++ s = String c0 (old' ++ s)) by reflexivity.
  rewrite E. cbn [replace_from]. rewrite <- E, prefix_app.
  f_equal. replace (String.length old - 1)%nat with (String.length old')
    by (simpl; lia).
  apply replace_from_skip.
Qed.

Lemma rep_step c s :
  String.prefix old (String c s) = false -> rep (String c s) = String c (rep s).
Proof.
  intros H. rewrite !rep_eq. cbn [replace_from]. now rewrite H.
Qed.

Lemma rep_absent s : ~ occurs old s -> rep s = s.
Proof.
  induction s as [|c s IH]; intros Hno; [reflexivity|].
  rewrite rep_step.
  - f_equal. apply IH. intros Hs. apply Hno. now apply occurs_later.
  - destruct (String.prefix old (String c s)) eqn:E; [|reflexivity].
    exfalso. apply Hno. now apply occurs_here.
Qed.

(** No occurrence of [old] starts inside [u] and ends inside a following
    occurrence. *)
Lemma no_straddle c u s :
  ~ occurs old (String c u) ->
  String.prefix old (String c u ++ old ++ s) = false.
Proof.
  intros Hno.
  destruct (String.prefix old (String c u ++ old ++ s)) eqn:E; [|reflexivity].
  exfalso.
  destruct (prefix_over_app _ _ _ E) as [Hin | (p2 & Hold & Hp2)].
  - apply Hno. now apply occurs_here.
  - destruct p2 as [|c2 p2].
    + rewrite sapp_empty_r in Hold. apply Hno. rewrite <- Hold.
      exists "", "". simpl. now rewrite sapp_empty_r.
    + simpl in Hp2.
      destruct (ascii_dec c2 c0); [|discriminate]. subst c2.
      simpl in Hold. injection Hold as _ Hold'.
      rewrite Hold', mem_char_app in first_char_unique. discriminate.
Qed.

Lemma rep_before_match (u : string) : forall s,
  ~ occurs old u -> rep (u ++ old ++ s) = u ++ new ++ rep s.
Proof.
  induction u as [|c u IH]; intros s Hno.
  - apply rep_match.
  - change (String c u ++ old ++ s) with (String c (u ++ old ++ s)).
    rewrite rep_step.
    + simpl. f_equal. apply IH. intros Hu. apply Hno. now apply occurs_later.
    + apply (no_straddle c u s Hno).
Qed.

(** Replacing in a text cut at the occurrences of [old]. *)
Lemma rep_join (pieces : list string) :
  Forall (fun p => ~ occurs old p) pieces ->
  rep (join old pieces) = join new pieces.
Proof.
  induction pieces as [|p [|q rest] IH]; intros Hall.
  - reflexivity.
  - inversion Hall; subst. now apply rep_absent.
  - inversion Hall as [|? ? Hp Hrest]; subst.
    change (join old (p :: q :: rest)) with (p ++ old ++ join old (q :: rest)).
    change (join new (p :: q :: rest)) with (p ++ new ++ join new (q :: rest)).
    rewrite rep_before_match by exact Hp. now rewrite IH.
Qed.

(** Every text is cut at the occurrences of [old] into pieces free of it. *)
Lemma cut_at_occurrences (s : string) :
  exists p pieces,
    s = join old (p :: pieces)
    /\ Forall (fun p => ~ occurs old p) (p :: pieces).
Proof.
  induction s as [|c s (p & pieces & Hs & Hall)].
  - exists "", []. split; [reflexivity|].
    constructor; [|constructor].
    intros (a & b & H). destruct a; discriminate.
  - inversion Hall as [|? ? Hp Hrest]; subst.
    assert (Hjoin : forall x, join old (String c x :: pieces)
                              = String c (join old (x :: pieces)))
      by (intros x; destruct pieces; reflexivity).
    destruct (String.prefix old (String c p)) eqn:E.
    + destruct (prefix_split _ _ E) as [rest Hrest_eq].
      exists "", (rest :: pieces). split.
      * rewrite <- Hjoin, Hrest_eq.
        change (join old ("" :: rest :: pieces))
          with (old ++ join old (rest :: pieces)).
        destruct pieces; simpl; [reflexivity|].
        now rewrite sapp_assoc.
      * constructor; [|constructor; [|exact Hrest]].
        -- intros (a & b & H). destruct a; discriminate.
        -- intros Hocc. apply Hp.
           simpl in Hrest_eq.
           injection Hrest_eq as _ ->. now apply occurs_suffix.
    + exists (String c p), pieces. split; [now rewrite Hjoin|].
      constructor; [|exact Hrest].
      intros Hocc. destruct (occurs_cons_inv _ _ _ Hocc); congruence.
Qed.

Lemma join_app (sep : string) (xs : list string) : forall y ys,
  xs <> [] ->
  join sep (xs ++ y :: ys) = join sep xs ++ sep ++ join sep (y :: ys).
Proof.
  induction xs as [|x [|x' xs] IH]; intros y ys Hne; [congruence| |].
  - reflexivity.
  - change (join sep ((x :: x' :: xs) ++ y :: ys))
      with (x ++ sep ++ join sep ((x' :: xs) ++ y :: ys)).
    rewrite IH by discriminate.
    change (join sep (x :: x' :: xs)) with (x ++ sep ++ join sep (x' :: xs)).
    now rewrite !sapp_assoc.
Qed.

(** [replace] distributes over an occurrence of [old]: the text before and
    the text after are rewritten on their own, and [new] is put between
    them as it is. *)
Lemma rep_around_match (s t : string) :
  rep (s ++ old ++ t) = rep s ++ new ++ rep t.
Proof.
  destruct (cut_at_occurrences s) as (p & ps & -> & Hps).
  destruct (cut_at_occurrences t) as (q & qs & -> & Hqs).
  rewrite <- join_app by discriminate.
  rewrite !rep_join; try assumption.
  - now rewrite join_app by discriminate.
  - apply Forall_app. split; assumption.
Qed.

End ReplaceFacts.

Lemma contains_false sub s : contains sub s = false -> ~ occurs sub s.
Proof.
  induction s as [|c s IH]; intros H Hocc.
  - destruct Hocc as (a & b & Hs).
    destruct a; [|discriminate]. destruct sub; [|discriminate].
    discriminate H.
  - cbn [contains] in H. apply orb_false_elim in H as [Hpre Hrest].
    destruct (occurs_cons_inv _ _ _ Hocc) as [Hp | Hs]; [congruence|].
    now apply IH.
Qed.

Lemma placeholder_first_char_unique : mem_char "["%char "formatted_data]" = false.
Proof. reflexivity. Qed.

Lemma format_prompt_join (data : string) (pieces : list string) :
  Forall (fun p => ~ occurs placeholder p) pieces ->
  format_prompt data (join placeholder pieces) = join data pieces.
Proof.
  exact (rep_join "["%char "formatted_data]" data
           placeholder_first_char_unique pieces).
Qed.

Lemma template_pieces (template : string) :
  exists p pieces,
    template = join placeholder (p :: pieces)
    /\ Forall (fun x => ~ occurs placeholder x) (p :: pieces).
Proof.
  exact (cut_at_occurrences "["%char "formatted_data]" template).
Qed.

Lemma format_prompt_around (data before after : string) :
  format_prompt data (before ++ placeholder ++ after)
  = format_prompt data before ++ data ++ format_prompt data after.
Proof.
  exact (rep_around_match "["%char "formatted_data]" data
           placeholder_first_char_unique before after).
Qed.

(** C4: every template is a sequence of placeholder-free pieces separated
    by the token [[formatted_data]], and [format_prompt] returns the same
    pieces, unchanged and in order, separated by the data string instead.
    A template without the token is returned as it is, whatever the data;
    the three renderings named in the specification come out as stated. *)
Theorem format_prompt_replaces_every_placeholder (data template : string) :
  (exists p pieces,
      template = join placeholder (p :: pieces)
      /\ Forall (fun x => ~ occurs placeholder x) (p :: pieces))
  /\ (forall pieces,
        Forall (fun x => ~ occurs placeholder x) pieces ->
        template = join placeholder pieces ->
        format_prompt data template = join data pieces)
  /\ (~ occurs placeholder template -> format_prompt data template = template)
  /\ format_prompt "X" "Analyze this data: [formatted_data]"
     = "Analyze this data: X"
  /\ format_prompt "X" "[formatted_data] and [formatted_data]" = "X and X".
Proof.
  split; [apply template_pieces|].
  split; [intros pieces Hfree ->; now apply format_prompt_join|].
  split; [|split; reflexivity].
  intros Hno.
  apply (format_prompt_join data [template]). now constructor.
Qed.

(** A template without the token, as in the tests. *)
Lemma format_prompt_replaces_every_placeholder_witness :
  ~ occurs placeholder "No placeholder"
  /\ format_prompt "data" "No placeholder" = "No placeholder".
Proof.
  assert (H : ~ occurs placeholder "No placeholder")
    by (apply contains_false; reflexivity).
  split; [exact H|].
  exact (proj1 (proj2 (proj2
           (format_prompt_replaces_every_placeholder "data" "No placeholder"))) H).
Defined.

(** C9: rendering is one pass from left to right.  Around any occurrence of
    the token the template is rendered part by part, with the data string
    put in between exactly as it is, so the inserted text is never searched
    again: a template that is the token alone renders to the data itself
    even when the data contains the token, and rendering with the token as
    data gives the template back. *)
Theorem format_prompt_single_pass (data before after : string) :
  format_prompt data (before ++ placeholder ++ after)
  = format_prompt data before ++ data ++ format_prompt data after
  /\ format_prompt data placeholder = data
  /\ format_prompt placeholder before = before
  /\ format_prompt "<[formatted_data]>" "a[formatted_data]b[formatted_data]"
     = "a<[formatted_data]>b<[formatted_data]>".
Proof.
  split; [apply format_prompt_around|].
  split.
  - pose proof (format_prompt_around data "" "") as H.
    cbn [append] in H. rewrite sapp_empty_r in H.
    change (format_prompt data "") with "" in H.
    cbn [append] in H. now rewrite sapp_empty_r in H.
  - split; [|reflexivity].
    destruct (template_pieces before) as (p & pieces & -> & Hfree).
    now apply format_prompt_join.
Qed.

(* ===================================================================== *)
(** ** The loops of the two conversions                                   *)
(* ===================================================================== *)

Lemma no_rows_empty df : rows df = [] -> empty df = true.
Proof. unfold empty. intros ->. now destruct (columns df). Qed.

Section Loops.

Context {source pyfloat : Type} (pd : Pandas source pyfloat).

Implicit Types (all_sheets items : dict DataFrame) (df : DataFrame).

Lemma convert_to_format_unsupported output_format df :
  is_supported pd output_format = false ->
  convert_to_format pd output_format df
  = Raise (ValueError ("Unsupported output format: " ++ output_format)).
Proof.
  unfold is_supported, supported_formats, convert_to_format. cbn [existsb].
  intros H.
  destruct (String.eqb (str_lower pd output_format) "csv"); [discriminate|].
  destruct (String.eqb (str_lower pd output_format) "json"); [discriminate|].
  destruct (String.eqb (str_lower pd output_format) "markdown"); [discriminate|].
  reflexivity.
Qed.

Lemma convert_to_format_supported output_format :
  is_supported pd output_format = true ->
  exists render,
    In render [to_csv pd; to_json pd; to_markdown pd]
    /\ forall df, convert_to_format pd output_format df = Ok (render df).
Proof.
  unfold is_supported, supported_formats, convert_to_format. cbn [existsb].
  intros H.
  destruct (String.eqb (str_lower pd output_format) "csv");
    [exists (to_csv pd); simpl; auto|].
  destruct (String.eqb (str_lower pd output_format) "json");
    [exists (to_json pd); simpl; auto|].
  destruct (String.eqb (str_lower pd output_format) "markdown");
    [exists (to_markdown pd); simpl; auto|].
  discriminate.
Qed.

Lemma convert_to_format_raises output_format df e :
  convert_to_format pd output_format df = Raise e ->
  is_supported pd output_format = false.
Proof.
  intros H. destruct (is_supported pd output_format) eqn:E; [|reflexivity].
  destruct (convert_to_format_supported _ E) as (render & _ & Hr).
  rewrite Hr in H. discriminate.
Qed.

Lemma convert_to_format_lower output_format name df :
  str_lower pd output_format = name -> In name supported_formats ->
  convert_to_format pd output_format df = convert_to_format pd name df.
Proof.
  intros Hl Hin. unfold convert_to_format.
  assert (Hn : str_lower pd name = name)
    by (destruct Hin as [<- | [<- | [<- | []]]];
        apply (str_lower_ascii pd); reflexivity).
  rewrite Hl, Hn.
  destruct Hin as [<- | [<- | [<- | []]]]; reflexivity.
Qed.

Lemma convert_to_format_named output_format name
    (render : DataFrame -> string) :
  In (name, render)
     [("csv", to_csv pd); ("json", to_json pd); ("markdown", to_markdown pd)] ->
  str_lower pd output_format = name ->
  forall df, convert_to_format pd output_format df = Ok (render df).
Proof.
  intros Hin Hl df. unfold convert_to_format. rewrite Hl.
  destruct Hin as [E | [E | [E | []]]]; injection E as <- <-; reflexivity.
Qed.

(** *** The loop of [excel_to_formatted_text] *)

Lemma format_sheets_skips_empty output_format items : forall acc,
  format_sheets pd output_format items acc
  = format_sheets pd output_format (non_empty_sheets items) acc.
Proof.
  induction items as [|[name df] items IH]; intros acc; [reflexivity|].
  cbn [format_sheets non_empty_sheets filter snd].
  destruct (empty df) eqn:E; cbn [negb].
  - apply IH.
  - cbn [format_sheets]. rewrite E.
    destruct (convert_to_format pd output_format (fillna "" df));
      cbn [bind]; [apply IH | reflexivity].
Qed.

Lemma format_sheets_unsupported output_format items acc :
  is_supported pd output_format = false ->
  non_empty_sheets items <> [] ->
  format_sheets pd output_format items acc
  = Raise (ValueError ("Unsupported output format: " ++ output_format)).
Proof.
  intros Hfmt Hne. rewrite format_sheets_skips_empty.
  destruct (non_empty_sheets items) as [|[name df] rest] eqn:E; [congruence|].
  assert (Hdf : empty df = false).
  { assert (Hin : In (name, df) (non_empty_sheets items))
      by (rewrite E; now left).
    apply filter_In in Hin as [_ Hin]. simpl in Hin.
    now destruct (empty df). }
  cbn [format_sheets]. rewrite Hdf.
  now rewrite convert_to_format_unsupported.
Qed.

Lemma format_sheets_supported output_format render items :
  (forall df, convert_to_format pd output_format df = Ok (render df)) ->
  forall acc,
    format_sheets pd output_format items acc
    = Ok (acc ++ map (sheet_block render) (non_empty_sheets items))%list.
Proof.
  intros Hr. induction items as [|[name df] items IH]; intros acc.
  - simpl. now rewrite app_nil_r.
  - cbn [format_sheets non_empty_sheets filter snd].
    destruct (empty df); cbn [negb]; [apply IH|].
    rewrite Hr. cbn [bind]. rewrite IH. unfold append.
    cbn [map]. now rewrite <- app_assoc.
Qed.

Lemma first_non_empty_filtered all_sheets :
  first_non_empty all_sheets = first_non_empty (non_empty_sheets all_sheets).
Proof.
  unfold first_non_empty, dict_values.
  induction all_sheets as [|[name df] rest IH]; [reflexivity|].
  cbn [map find non_empty_sheets filter snd].
  destruct (empty df) eqn:E; cbn [negb]; [exact IH|].
  cbn [map find snd]. now rewrite E.
Qed.

Lemma first_non_empty_none all_sheets :
  non_empty_sheets all_sheets = [] -> first_non_empty all_sheets = None.
Proof. intros H. now rewrite first_non_empty_filtered, H. Qed.

(** *** The loop of [excel_to_chunked_text] *)

Lemma chunk_sheets_unbound output_format chunk_size prompt_template items :
  forall chunks,
    chunk_sheets pd output_format chunk_size prompt_template items chunks None
    = match non_empty_sheets items with
      | [] => Ok (chunks, None)
      | _ :: _ => Raise (UnboundLocalError "chunk_df")
      end.
Proof.
  induction items as [|[name df] items IH]; intros chunks; [reflexivity|].
  cbn [chunk_sheets non_empty_sheets filter snd].
  destruct (empty df); cbn [negb]; [apply IH | reflexivity].
Qed.

Lemma chunked_body_unfold all_sheets output_format chunk_size prompt_template
    include_summary :
  chunked_body pd all_sheets output_format chunk_size prompt_template
    include_summary
  = if dict_is_empty all_sheets
    then Raise (ValueError "No sheets could be read from the Excel file")
    else match non_empty_sheets all_sheets with
         | [] => Ok []
         | _ :: _ => Raise (UnboundLocalError "chunk_df")
         end.
Proof.
  unfold chunked_body. destruct all_sheets as [|kv rest]; [reflexivity|].
  cbn [dict_is_empty]. rewrite chunk_sheets_unbound.
  destruct (non_empty_sheets (kv :: rest)); [|reflexivity].
  cbn [bind fst List.length Nat.eqb negb]. now rewrite andb_false_r.
Qed.

(** *** From the public functions to their bodies *)

Lemma formatted_outcome file_path sheet_names output_format chunk_size
    prompt_template include_summary evaluate_formulas all_sheets :
  outcome (read_sheets pd file_path sheet_names) = Ok all_sheets ->
  outcome (excel_to_formatted_text pd file_path sheet_names output_format
             chunk_size prompt_template include_summary evaluate_formulas)
  = try_except formatted_prefix
      (formatted_body pd all_sheets output_format prompt_template
         include_summary).
Proof.
  intros H. unfold excel_to_formatted_text. cbn [outcome]. now rewrite H.
Qed.

Lemma chunked_outcome file_path sheet_names output_format chunk_size
    prompt_template include_summary all_sheets :
  outcome (read_sheets pd file_path sheet_names) = Ok all_sheets ->
  outcome (excel_to_chunked_text pd file_path sheet_names output_format
             chunk_size prompt_template include_summary)
  = try_except chunked_prefix
      (chunked_body pd all_sheets output_format chunk_size prompt_template
         include_summary).
Proof.
  intros H. unfold excel_to_chunked_text. cbn [outcome]. now rewrite H.
Qed.

Lemma formatted_body_all_empty all_sheets output_format prompt_template
    include_summary :
  all_sheets <> [] -> non_empty_sheets all_sheets = [] ->
  formatted_body pd all_sheets output_format prompt_template include_summary
  = Ok (format_prompt "" prompt_template).
Proof.
  intros Hne Hall. unfold formatted_body.
  destruct all_sheets as [|kv rest]; [congruence|]. cbn [dict_is_empty].
  rewrite format_sheets_skips_empty, Hall. cbn [format_sheets bind join String.concat].
  rewrite (first_non_empty_none _ Hall). now destruct include_summary.
Qed.

End Loops.

Section Bodies.

Context {source pyfloat : Type} (pd : Pandas source pyfloat).

Implicit Types (all_sheets items : dict DataFrame) (df : DataFrame).

Lemma sapp_inv_head (p a b : string) : p ++ a = p ++ b -> a = b.
Proof. induction p; simpl; intros H; [exact H | injection H; auto]. Qed.

Lemma format_sheets_raises output_format items : forall acc e,
  format_sheets pd output_format items acc = Raise e ->
  e = ValueError ("Unsupported output format: " ++ output_format).
Proof.
  induction items as [|[name df] items IH]; intros acc e H; [discriminate|].
  cbn [format_sheets] in H. destruct (empty df); [now apply IH in H|].
  destruct (convert_to_format pd output_format (fillna "" df)) eqn:E;
    cbn [bind] in H; [now apply IH in H|].
  pose proof (convert_to_format_raises pd _ _ _ E) as Hs.
  rewrite (convert_to_format_unsupported pd _ (fillna "" df) Hs) in E.
  congruence.
Qed.

Lemma format_chunks_raises output_format prompt_template sheet total
    (numbered : list (Z * DataFrame)) : forall chunks slot e,
  format_chunks pd output_format prompt_template sheet total numbered
    chunks slot = Raise e ->
  is_supported pd output_format = false.
Proof.
  induction numbered as [|[i c] numbered IH]; intros chunks slot e H;
    [discriminate|].
  cbn [format_chunks] in H.
  destruct (convert_to_format pd output_format c) eqn:E; cbn [bind] in H.
  - now apply IH in H.
  - now apply convert_to_format_raises in E.
Qed.

Lemma formatted_body_raises all_sheets output_format prompt_template
    include_summary e :
  all_sheets <> [] ->
  formatted_body pd all_sheets output_format prompt_template include_summary
  = Raise e ->
  e = ValueError ("Unsupported output format: " ++ output_format).
Proof.
  intros Hne H. unfold formatted_body in H.
  destruct all_sheets as [|kv rest]; [congruence|]. cbn [dict_is_empty] in H.
  destruct (format_sheets pd output_format (kv :: rest) []) eqn:E;
    cbn [bind] in H; [discriminate|].
  injection H as <-. now apply format_sheets_raises in E.
Qed.

Lemma formatted_body_same_non_empty all_sheets all_sheets' output_format
    prompt_template include_summary :
  all_sheets <> [] -> all_sheets' <> [] ->
  non_empty_sheets all_sheets = non_empty_sheets all_sheets' ->
  formatted_body pd all_sheets output_format prompt_template include_summary
  = formatted_body pd all_sheets' output_format prompt_template
      include_summary.
Proof.
  intros H1 H2 Heq. unfold formatted_body.
  destruct all_sheets; [congruence|]. destruct all_sheets'; [congruence|].
  cbn [dict_is_empty].
  rewrite (format_sheets_skips_empty pd _ (_ :: all_sheets)).
  rewrite (format_sheets_skips_empty pd _ (_ :: all_sheets')).
  rewrite (first_non_empty_filtered (_ :: all_sheets)).
  rewrite (first_non_empty_filtered (_ :: all_sheets')).
  now rewrite Heq.
Qed.

Lemma chunked_body_same_non_empty all_sheets all_sheets' output_format
    chunk_size prompt_template include_summary :
  all_sheets <> [] -> all_sheets' <> [] ->
  non_empty_sheets all_sheets = non_empty_sheets all_sheets' ->
  chunked_body pd all_sheets output_format chunk_size prompt_template
    include_summary
  = chunked_body pd all_sheets' output_format chunk_size prompt_template
      include_summary.
Proof.
  intros H1 H2 Heq.
  rewrite !chunked_body_unfold, Heq.
  destruct all_sheets; [congruence|]. now destruct all_sheets'; [congruence|].
Qed.

Lemma non_empty_sheets_without (before after : dict DataFrame) name df :
  empty df = true ->
  non_empty_sheets (before ++ (name, df) :: after)%list
  = non_empty_sheets (before ++ after)%list.
Proof.
  intros H. unfold non_empty_sheets. rewrite !filter_app.
  cbn [filter snd]. now rewrite H.
Qed.

(** *** The format name in the loops *)

Lemma format_sheets_lower output_format name items :
  str_lower pd output_format = name -> In name supported_formats ->
  forall acc,
    format_sheets pd output_format items acc = format_sheets pd name items acc.
Proof.
  intros Hl Hin. induction items as [|[n df] items IH]; intros acc;
    [reflexivity|].
  cbn [format_sheets]. destruct (empty df); [apply IH|].
  rewrite (convert_to_format_lower pd _ _ _ Hl Hin).
  destruct (convert_to_format pd name (fillna "" df)); cbn [bind];
    [apply IH | reflexivity].
Qed.

Lemma format_chunks_lower output_format name prompt_template sheet total
    (numbered : list (Z * DataFrame)) :
  str_lower pd output_format = name -> In name supported_formats ->
  forall chunks slot,
    format_chunks pd output_format prompt_template sheet total numbered
      chunks slot
    = format_chunks pd name prompt_template sheet total numbered chunks slot.
Proof.
  intros Hl Hin. induction numbered as [|[i c] numbered IH]; intros chunks slot;
    [reflexivity|].
  cbn [format_chunks]. rewrite (convert_to_format_lower pd _ _ _ Hl Hin).
  destruct (convert_to_format pd name c); cbn [bind]; [apply IH | reflexivity].
Qed.

Lemma chunk_sheets_lower output_format name chunk_size prompt_template items :
  str_lower pd output_format = name -> In name supported_formats ->
  forall chunks slot,
    chunk_sheets pd output_format chunk_size prompt_template items chunks slot
    = chunk_sheets pd name chunk_size prompt_template items chunks slot.
Proof.
  intros Hl Hin. induction items as [|[n df] items IH]; intros chunks slot;
    [reflexivity|].
  cbn [chunk_sheets]. destruct (empty df); [apply IH|].
  destruct (call_local_chunk_df slot (fillna "" df) chunk_size);
    cbn [bind]; [|reflexivity].
  rewrite (format_chunks_lower _ _ _ _ _ _ Hl Hin).
  match goal with |- bind ?r _ = _ => destruct r end; cbn [bind];
    [apply IH | reflexivity].
Qed.

(** *** Reading a list of names *)

Lemma read_each_spec file_path sheet_names : forall all_sheets printed,
  read_each pd file_path sheet_names all_sheets printed
  = (fold_left (keep_readable pd file_path) sheet_names all_sheets,
     (printed ++ flat_map (warning_for pd file_path) sheet_names)%list).
Proof.
  induction sheet_names as [|sheet rest IH]; intros all_sheets printed.
  - simpl. now rewrite app_nil_r.
  - cbn [read_each fold_left flat_map].
    destruct (read_excel pd file_path sheet false) as [df | e] eqn:E;
      rewrite IH.
    + replace (keep_readable pd file_path all_sheets sheet)
        with (dict_set sheet df all_sheets)
        by (unfold keep_readable; now rewrite E).
      replace (warning_for pd file_path sheet) with (@nil string)
        by (unfold warning_for; now rewrite E).
      reflexivity.
    + replace (keep_readable pd file_path all_sheets sheet) with all_sheets
        by (unfold keep_readable; now rewrite E).
      replace (warning_for pd file_path sheet) with [warning sheet e]
        by (unfold warning_for; now rewrite E).
      unfold append. now rewrite <- app_assoc.
Qed.

(** A list selector never fails while reading: every name that cannot be
    read is left out and reported, and the other names are read in order. *)
Lemma read_sheets_list file_path sheet_names :
  read_sheets pd file_path (SheetList sheet_names)
  = mkRun (flat_map (warning_for pd file_path) sheet_names)
      (Ok (fold_left (keep_readable pd file_path) sheet_names [])).
Proof.
  unfold read_sheets. now rewrite read_each_spec.
Qed.

(** With one readable and one unreadable name, in either order, only the
    readable sheet is loaded, one warning is printed, and
    [excel_to_formatted_text] ends as it does for the readable name alone;
    with a supported format it returns normally. *)
Lemma formatted_text_with_one_unreadable_sheet file_path good bad df e
    output_format chunk_size prompt_template include_summary
    evaluate_formulas sheet_names :
  read_excel pd file_path good false = Ok df ->
  read_excel pd file_path bad false = Raise e ->
  sheet_names = [good; bad] \/ sheet_names = [bad; good] ->
  is_supported pd output_format = true ->
  let r := excel_to_formatted_text pd file_path (SheetList sheet_names)
             output_format chunk_size prompt_template include_summary
             evaluate_formulas in
  read_sheets pd file_path (SheetList sheet_names)
  = mkRun [warning bad e] (Ok [(good, df)])
  /\ outcome r
     = outcome (excel_to_formatted_text pd file_path (SheetList [good])
                  output_format chunk_size prompt_template include_summary
                  evaluate_formulas)
  /\ exists text, outcome r = Ok text.
Proof.
  intros Hgood Hbad Hnames Hfmt r.
  assert (Hread : read_sheets pd file_path (SheetList sheet_names)
                  = mkRun [warning bad e] (Ok [(good, df)])).
  { rewrite read_sheets_list.
    destruct Hnames as [-> | ->]; cbn [flat_map fold_left];
      unfold keep_readable, warning_for; rewrite Hgood, Hbad; reflexivity. }
  assert (Hone : read_sheets pd file_path (SheetList [good])
                 = mkRun [] (Ok [(good, df)])).
  { rewrite read_sheets_list. cbn [flat_map fold_left].
    unfold keep_readable, warning_for. now rewrite Hgood. }
  split; [exact Hread|].
  subst r. unfold excel_to_formatted_text. rewrite Hread, Hone.
  split; [reflexivity|].
  cbn [outcome bind]. unfold formatted_body. cbn [dict_is_empty].
  destruct (convert_to_format_supported pd _ Hfmt) as (render & _ & Hr).
  rewrite (format_sheets_supported pd _ render _ Hr). cbn [bind try_except].
  eexists. reflexivity.
Qed.

(** As soon as one loaded sheet is non-empty, [excel_to_chunked_text] ends
    with the re-raised [UnboundLocalError] of its call to [chunk_df],
    whatever the format, the chunk size and the template. *)
Lemma chunked_text_unbound_local file_path sheet_names output_format
    chunk_size prompt_template include_summary all_sheets :
  outcome (read_sheets pd file_path sheet_names) = Ok all_sheets ->
  non_empty_sheets all_sheets <> [] ->
  outcome (excel_to_chunked_text pd file_path sheet_names output_format
             chunk_size prompt_template include_summary)
  = Raise (Exception
             (chunked_prefix ++ str_exn (UnboundLocalError "chunk_df"))).
Proof.
  intros Hload Hsome.
  rewrite (chunked_outcome pd _ _ _ _ _ _ _ Hload), chunked_body_unfold.
  destruct all_sheets as [|kv rest]; [now elim Hsome|]. cbn [dict_is_empty].
  destruct (non_empty_sheets (kv :: rest)); [congruence | reflexivity].
Qed.

End Bodies.

(* ===================================================================== *)
(** ** What the conversions return                                        *)
(* ===================================================================== *)

Lemma nth_error_numbered {A : Type} (xs : list A) : forall start j x,
  nth_error xs j = Some x ->
  nth_error (combine (seq start (List.length xs)) xs) j = Some ((start + j)%nat, x).
Proof.
  induction xs as [|y xs IH]; intros start j x H; [now destruct j|].
  destruct j as [|j]; simpl in *.
  - injection H as ->. now rewrite Nat.add_0_r.
  - rewrite (IH (S start) j x H). f_equal. f_equal. lia.
Qed.

Lemma isnull_sum_column df j col :
  nth_error (columns df) j = Some col ->
  In (col, count_null (column_cells df j)) (isnull_sum df).
Proof.
  intros H. unfold isnull_sum.
  apply (in_map (fun jc => (snd jc, count_null (column_cells df (fst jc))))
           _ (j, col)).
  apply (nth_error_In _ j). now rewrite (nth_error_numbered _ 0 j col H).
Qed.

Lemma fillna_no_null value df :
  Forall (Forall (fun c => isnull c = false)) (rows (fillna value df)).
Proof.
  unfold fillna. cbn [rows].
  apply Forall_map, Forall_forall. intros r _.
  apply Forall_map, Forall_forall. intros c _. now destruct c.
Qed.

(** Two messages that agree on the prefix put in front by [except] and
    differ in what follows. *)
Ltac different_messages H :=
  cbn [try_except str_exn] in H;
  unfold NoSheetsLoaded, UnsupportedFormat in H;
  injection H as H;
  first [ discriminate H | apply sapp_inv_head in H; discriminate H ].

Section Conversions.

Context {source pyfloat : Type} (pd : Pandas source pyfloat).


(** C6: once the workbook has been read, each conversion fails with
    [NoSheetsLoaded] exactly when no sheet was loaded.  A loaded sheet
    without rows is passed over: the call ends as it would without that
    sheet, and if it was the only sheet the call returns the template
    rendered with empty data (for [excel_to_formatted_text]) or the empty
    list (for [excel_to_chunked_text]). *)
Theorem no_sheets_loaded_iff_nothing_was_read
    (file_path : source) (sheet_names : sheet_selector)
    (output_format : string) (chunk_size : Z) (prompt_template : string)
    (include_summary evaluate_formulas : bool)
    (all_sheets : dict DataFrame) :
  outcome (read_sheets pd file_path sheet_names) = Ok all_sheets ->
  let formatted :=
    outcome (excel_to_formatted_text pd file_path sheet_names output_format
               chunk_size prompt_template include_summary evaluate_formulas) in
  let chunked :=
    outcome (excel_to_chunked_text pd file_path sheet_names output_format
               chunk_size prompt_template include_summary) in
  (formatted = Raise (NoSheetsLoaded formatted_prefix) <-> all_sheets = [])
  /\ (chunked = Raise (NoSheetsLoaded chunked_prefix) <-> all_sheets = [])
  /\ forall (before after : dict DataFrame) (name : string) (df : DataFrame),
       all_sheets = (before ++ (name, df) :: after)%list ->
       rows df = [] ->
       formatted
       = try_except formatted_prefix
           (if dict_is_empty (before ++ after)%list
            then Ok (format_prompt "" prompt_template)
            else formatted_body pd (before ++ after)%list output_format
                   prompt_template include_summary)
       /\ chunked
          = try_except chunked_prefix
              (if dict_is_empty (before ++ after)%list
               then Ok []
               else chunked_body pd (before ++ after)%list output_format
                      chunk_size prompt_template include_summary).
Proof.
  intros Hload formatted chunked. subst formatted chunked.
  rewrite (formatted_outcome pd _ _ _ _ _ _ _ _ Hload).
  rewrite (chunked_outcome pd _ _ _ _ _ _ _ Hload).
  split; [|split].
  - split.
    + intros H. destruct all_sheets as [|kv rest]; [reflexivity|]. exfalso.
      destruct (formatted_body pd (kv :: rest) output_format prompt_template
                  include_summary) as [text | e] eqn:E; [discriminate|].
      apply formatted_body_raises in E; [|discriminate]. subst e.
      different_messages H.
    + intros ->. reflexivity.
  - split.
    + intros H. destruct all_sheets as [|kv rest]; [reflexivity|]. exfalso.
      rewrite chunked_body_unfold in H.
      destruct (non_empty_sheets (kv :: rest)); [discriminate|].
      different_messages H.
    + intros ->. reflexivity.
  - intros before after name df -> Hrows.
    pose proof (non_empty_sheets_without before after name df
                  (no_rows_empty df Hrows)) as Hsame.
    assert (Hne : (before ++ (name, df) :: after)%list <> [])
      by (destruct before; discriminate).
    destruct (before ++ after)%list as [|kv rest] eqn:E; cbn [dict_is_empty].
    + cbn [non_empty_sheets filter] in Hsame. split.
      * now rewrite (formatted_body_all_empty pd _ _ _ _ Hne Hsame).
      * rewrite chunked_body_unfold, Hsame.
        destruct (before ++ (name, df) :: after)%list; [congruence|reflexivity].
    + split; f_equal.
      * apply formatted_body_same_non_empty; [exact Hne|discriminate|exact Hsame].
      * apply chunked_body_same_non_empty; [exact Hne|discriminate|exact Hsame].
Qed.

(** C10: both conversions look at the format only through
    [output_format.lower()].  When that is one of the three supported names,
    the run (printed warnings and outcome) of each conversion is the run
    for the lowercase name itself, and so is every rendering of a table by
    the [if]/[elif] chain and every run of the loop over the chunks of a
    sheet.  Once the workbook has been read, a conversion fails with
    [UnsupportedFormat] only if [output_format.lower()] is none of the
    three; and the chain, like the loop over a sheet's chunks when there is
    a chunk, raises the unsupported-format error exactly when
    [output_format.lower()] is none of the three. *)
Theorem output_format_is_matched_in_lower_case
    (file_path : source) (sheet_names : sheet_selector)
    (output_format : string) (chunk_size : Z) (prompt_template : string)
    (include_summary evaluate_formulas : bool) :
  (forall name,
      str_lower pd output_format = name -> In name supported_formats ->
      excel_to_formatted_text pd file_path sheet_names output_format
        chunk_size prompt_template include_summary evaluate_formulas
      = excel_to_formatted_text pd file_path sheet_names name
          chunk_size prompt_template include_summary evaluate_formulas
      /\ excel_to_chunked_text pd file_path sheet_names output_format
           chunk_size prompt_template include_summary
         = excel_to_chunked_text pd file_path sheet_names name
             chunk_size prompt_template include_summary
      /\ (forall df,
            convert_to_format pd output_format df
            = convert_to_format pd name df)
      /\ (forall sheet total numbered chunks slot,
            format_chunks pd output_format prompt_template sheet total
              numbered chunks slot
            = format_chunks pd name prompt_template sheet total numbered
                chunks slot))
  /\ (forall df,
        convert_to_format pd output_format df
        = Raise (ValueError ("Unsupported output format: " ++ output_format))
        <-> is_supported pd output_format = false)
  /\ (forall sheet total i chunk rest chunks slot,
        format_chunks pd output_format prompt_template sheet total
          ((i, chunk) :: rest) chunks slot
        = Raise (ValueError ("Unsupported output format: " ++ output_format))
        <-> is_supported pd output_format = false)
  /\ (forall all_sheets,
        outcome (read_sheets pd file_path sheet_names) = Ok all_sheets ->
        outcome (excel_to_formatted_text pd file_path sheet_names
                   output_format chunk_size prompt_template include_summary
                   evaluate_formulas)
        = Raise (UnsupportedFormat formatted_prefix output_format)
        \/ outcome (excel_to_chunked_text pd file_path sheet_names
                      output_format chunk_size prompt_template
                      include_summary)
           = Raise (UnsupportedFormat chunked_prefix output_format) ->
        is_supported pd output_format = false).
Proof.
  split; [|split; [|split]].
  - intros name Hl Hin.
    split; [|split; [|split]].
    + unfold excel_to_formatted_text. f_equal. f_equal.
      destruct (outcome (read_sheets pd file_path sheet_names)) as [sheets|e];
        cbn [bind]; [|reflexivity].
      unfold formatted_body.
      now rewrite (format_sheets_lower pd _ _ _ Hl Hin).
    + unfold excel_to_chunked_text. f_equal. f_equal.
      destruct (outcome (read_sheets pd file_path sheet_names)) as [sheets|e];
        cbn [bind]; [|reflexivity].
      unfold chunked_body.
      now rewrite (chunk_sheets_lower pd _ _ _ _ _ Hl Hin).
    + intros df. now apply convert_to_format_lower.
    + intros sheet total numbered chunks slot.
      now apply format_chunks_lower.
  - intros df. split.
    + apply convert_to_format_raises.
    + apply convert_to_format_unsupported.
  - intros sheet total i chunk rest chunks slot. split.
    + apply format_chunks_raises.
    + intros Hfmt. cbn [format_chunks].
      now rewrite (convert_to_format_unsupported pd _ _ Hfmt).
  - intros all_sheets Hload H.
    rewrite (formatted_outcome pd _ _ _ _ _ _ _ _ Hload) in H.
    rewrite (chunked_outcome pd _ _ _ _ _ _ _ Hload) in H.
    destruct (is_supported pd output_format) eqn:Hfmt; [exfalso|reflexivity].
    destruct H as [H | H].
    + destruct all_sheets as [|kv rest].
      * cbn [formatted_body chunked_body dict_is_empty] in H.
        different_messages H.
      * destruct (convert_to_format_supported pd _ Hfmt) as (render & _ & Hr).
        unfold formatted_body in H. cbn [dict_is_empty] in H.
        rewrite (format_sheets_supported pd _ render _ Hr) in H.
        discriminate.
    + rewrite chunked_body_unfold in H.
      destruct all_sheets as [|kv rest].
      * cbn [formatted_body chunked_body dict_is_empty] in H.
        different_messages H.
      * destruct (non_empty_sheets (kv :: rest)); [discriminate|].
        different_messages H.
Qed.

(** C8 (as amended): with the summary requested, the text handed to the
    template is the summary of the first non-empty sheet exactly as
    [read_excel] returned it, followed by the sheet blocks, which the
    renderer the [if]/[elif] chain selects for the format produces from the
    tables after [fillna].  The missing-value entry of every column of that
    summary is the number of null cells of the column in the loaded table,
    whereas the tables the renderer sees contain no null cell at all. *)
Theorem summary_counts_missing_cells_as_loaded
    (file_path : source) (sheet_names : sheet_selector)
    (output_format : string) (chunk_size : Z) (prompt_template : string)
    (evaluate_formulas : bool)
    (all_sheets : dict DataFrame) (first_df : DataFrame) :
  outcome (read_sheets pd file_path sheet_names) = Ok all_sheets ->
  first_non_empty all_sheets = Some first_df ->
  is_supported pd output_format = true ->
  exists render,
    In render [to_csv pd; to_json pd; to_markdown pd]
    /\ (forall df, convert_to_format pd output_format df = Ok (render df))
    /\ outcome (excel_to_formatted_text pd file_path sheet_names output_format
                  chunk_size prompt_template true evaluate_formulas)
       = Ok (format_prompt
               (format_summary pd (get_data_summary pd first_df) ++ nl ++ nl
                  ++ join (nl ++ nl)
                       (map (sheet_block render) (non_empty_sheets all_sheets)))
               prompt_template)
    /\ In first_df (dict_values all_sheets)
    /\ s_missing_values (get_data_summary pd first_df)
       = dict_of_list (isnull_sum first_df)
    /\ (forall j col,
          nth_error (columns first_df) j = Some col ->
          In (col, count_null (column_cells first_df j)) (isnull_sum first_df))
    /\ (forall kv,
          In kv (non_empty_sheets all_sheets) ->
          Forall (Forall (fun c => isnull c = false))
                 (rows (fillna "" (snd kv)))).
Proof.
  intros Hload Hfirst Hfmt.
  destruct (convert_to_format_supported pd _ Hfmt) as (render & Hin & Hr).
  exists render. split; [exact Hin|]. split; [exact Hr|].
  split.
  - rewrite (formatted_outcome pd _ _ _ _ _ _ _ _ Hload).
    unfold formatted_body.
    destruct all_sheets as [|kv rest]; [discriminate|]. cbn [dict_is_empty].
    rewrite (format_sheets_supported pd _ render _ Hr).
    cbn [bind app]. rewrite Hfirst. reflexivity.
  - split; [|split; [reflexivity|split]].
    + unfold first_non_empty in Hfirst. now apply find_some in Hfirst.
    + intros j col. apply isnull_sum_column.
    + intros kv _. apply fillna_no_null.
Qed.

End Conversions.

(** A workbook whose sheet holds a null cell in column [B]: the summary in
    the text is the one of the loaded table, which reports the null cell,
    and not the one of the table after [fillna], which reports none; the
    block that follows it is rendered from the table after [fillna]. *)
Lemma summary_counts_missing_cells_as_loaded_witness :
  outcome (read_sheets Demo.pandas Demo.null_book AllSheets)
  = Ok [("Data", Demo.with_gap)]
  /\ first_non_empty [("Data", Demo.with_gap)] = Some Demo.with_gap
  /\ is_supported Demo.pandas "csv" = true
  /\ outcome (excel_to_formatted_text Demo.pandas Demo.null_book AllSheets
                "csv" 5000 placeholder true false)
     = Ok (format_summary Demo.pandas
             (get_data_summary Demo.pandas Demo.with_gap)
           ++ nl ++ nl
           ++ sheet_header "Data"
           ++ Demo.demo_to_csv (fillna "" Demo.with_gap))
  /\ s_missing_values (get_data_summary Demo.pandas Demo.with_gap)
     = [("A", 0); ("B", 1)]
  /\ flat_map missing_lines
       (s_missing_values (get_data_summary Demo.pandas Demo.with_gap))
     = ["  B: 1"]
  /\ flat_map missing_lines
       (s_missing_values
          (get_data_summary Demo.pandas (fillna "" Demo.with_gap)))
     = []
  /\ format_summary Demo.pandas (get_data_summary Demo.pandas Demo.with_gap)
     <> format_summary Demo.pandas
          (get_data_summary Demo.pandas (fillna "" Demo.with_gap)).
Proof.
  destruct (summary_counts_missing_cells_as_loaded Demo.pandas Demo.null_book
              AllSheets "csv" 5000 placeholder false
              [("Data", Demo.with_gap)] Demo.with_gap
              eq_refl eq_refl eq_refl)
    as (render & _ & Hr & Hout & _ & Hmissing & _).
  split; [reflexivity|]. split; [reflexivity|]. split; [reflexivity|].
  split.
  - rewrite Hout.
    pose proof (Hr (fillna "" Demo.with_gap)) as E.
    change (convert_to_format Demo.pandas "csv" (fillna "" Demo.with_gap))
      with (Ok (A := string) (Demo.demo_to_csv (fillna "" Demo.with_gap))) in E.
    injection E as E.
    change (map (sheet_block render) (non_empty_sheets [("Data", Demo.with_gap)]))
      with [sheet_header "Data" ++ render (fillna "" Demo.with_gap)].
    rewrite <- E. reflexivity.
  - split; [rewrite Hmissing; reflexivity|].
    split; [reflexivity|]. split; [reflexivity|].
    intros H. vm_compute in H. discriminate H.
Defined.

(** C8, as stated, fails for a cell that is blank in the workbook: read with
    [na_filter=False] it is the empty string in the loaded table, so the
    summary the call prints counts no missing value in its column. *)
Lemma blank_source_cell_is_not_counted_as_missing :
  nth 1 (nth 1 (Demo.body Demo.gap_sheet) []) (Demo.Stored NaN) = Demo.Blank
  /\ outcome (read_sheets Demo.pandas Demo.gap_book AllSheets)
     = Ok [("Data", Demo.gap_loaded)]
  /\ outcome (excel_to_formatted_text Demo.pandas Demo.gap_book AllSheets
                "csv" 5000 placeholder true false)
     = Ok (format_summary Demo.pandas
             (get_data_summary Demo.pandas Demo.gap_loaded)
           ++ nl ++ nl ++ sheet_block Demo.demo_to_csv ("Data", Demo.gap_loaded))
  /\ s_missing_values (get_data_summary Demo.pandas Demo.gap_loaded)
     = [("A", 0); ("B", 0)]
  /\ flat_map missing_lines
       (s_missing_values (get_data_summary Demo.pandas Demo.gap_loaded))
     = [].
Proof. repeat split; reflexivity. Qed.



(** A list selector none of whose names can be read. *)
Lemma no_sheets_loaded_iff_nothing_was_read_witness :
  outcome (read_sheets Demo.pandas Demo.test_book (SheetList ["Missing"]))
  = Ok []
  /\ outcome (excel_to_formatted_text Demo.pandas Demo.test_book
                (SheetList ["Missing"]) "csv" 5000 Demo.default_template
                false false)
     = Raise (NoSheetsLoaded formatted_prefix)
  /\ outcome (excel_to_chunked_text Demo.pandas Demo.test_book
                (SheetList ["Missing"]) "csv" 2 Demo.default_template false)
     = Raise (NoSheetsLoaded chunked_prefix).
Proof.
  split; [reflexivity|].
  destruct (no_sheets_loaded_iff_nothing_was_read Demo.pandas Demo.test_book
              (SheetList ["Missing"]) "csv" 2 Demo.default_template
              false false [] eq_refl) as (Hf & Hc & _).
  split; [reflexivity | now apply Hc].
Defined.

(** [Markdown] and [markdown] on the workbook of the tests: the same run of
    the formatted conversion, and the same text for the first chunk of two
    rows of [Sheet1]. *)
Lemma output_format_is_matched_in_lower_case_witness :
  str_lower Demo.pandas "Markdown" = "markdown"
  /\ In "markdown" supported_formats
  /\ excel_to_formatted_text Demo.pandas Demo.test_book AllSheets "Markdown"
       5000 Demo.default_template true false
     = excel_to_formatted_text Demo.pandas Demo.test_book AllSheets "markdown"
         5000 Demo.default_template true false
  /\ format_chunks Demo.pandas "Markdown" Demo.default_template "Sheet1" 2
       [(0, chunk_at Demo.people 2 0)] [] None
     = format_chunks Demo.pandas "markdown" Demo.default_template "Sheet1" 2
         [(0, chunk_at Demo.people 2 0)] [] None.
Proof.
  assert (Hin : In "markdown" supported_formats) by (simpl; auto).
  pose proof (proj1 (output_format_is_matched_in_lower_case Demo.pandas
                       Demo.test_book AllSheets "Markdown" 5000
                       Demo.default_template true false)
                "markdown" eq_refl Hin) as (Hformatted & _ & _ & Hchunks).
  split; [reflexivity|]. split; [exact Hin|].
  split; [exact Hformatted | apply Hchunks].
Defined.

(** C5: on the workbook of the tests, with [Sheet1] selected, [chunk_size]
    2 and the summary requested, [excel_to_chunked_text] does not return
    three texts: the sheet is read, and the call to [chunk_df] at line 180
    finds the local name unbound, so the call ends with the re-raised
    exception. *)
Theorem chunked_text_of_four_rows_raises :
  len Demo.people = 4
  /\ outcome (read_sheets Demo.pandas Demo.test_book (SheetList ["Sheet1"]))
     = Ok [("Sheet1", Demo.people)]
  /\ outcome (excel_to_chunked_text Demo.pandas Demo.test_book
                (SheetList ["Sheet1"]) "csv" 2 Demo.default_template true)
     = Raise (Exception
                (chunked_prefix ++ str_exn (UnboundLocalError "chunk_df"))).
Proof. repeat split; reflexivity. Qed.

(** C7: with one sheet that exists and one that does not, the existing
    sheet alone is loaded and the other is reported; the formatted
    conversion returns a text, but the chunked conversion ends with the
    re-raised exception of the unbound local [chunk_df]. *)
Theorem chunked_text_with_a_missing_sheet_raises :
  read_sheets Demo.pandas Demo.test_book (SheetList ["Sheet1"; "Missing"])
  = mkRun ["Warning: Could not read sheet 'Missing': Worksheet named 'Missing' not found"]
      (Ok [("Sheet1", Demo.people)])
  /\ (exists text,
        outcome (excel_to_formatted_text Demo.pandas Demo.test_book
                   (SheetList ["Sheet1"; "Missing"]) "csv" 5000
                   Demo.default_template false false)
        = Ok text)
  /\ outcome (excel_to_chunked_text Demo.pandas Demo.test_book
                (SheetList ["Sheet1"; "Missing"]) "csv" 2
                Demo.default_template false)
     = Raise (Exception
                (chunked_prefix ++ str_exn (UnboundLocalError "chunk_df"))).
Proof.
  split; [reflexivity|]. split; [|reflexivity].
  eexists. reflexivity.
Qed.

(* ===================================================================== *)
(** ** More on chunking                                                   *)
(* ===================================================================== *)

Lemma range_up_nth fuel : forall i stop step j,
  0 < step -> stop - i <= Z.of_nat fuel ->
  i + Z.of_nat j * step < stop ->
  nth_error (range_up fuel i stop step) j = Some (i + Z.of_nat j * step).
Proof.
  induction fuel as [|fuel IH]; intros i stop step j Hstep Hfuel Hj.
  - assert (0 <= Z.of_nat j * step) by nia. lia.
  - assert (0 <= Z.of_nat j * step) by nia.
    simpl. destruct (Z.ltb_spec i stop); [|lia].
    destruct j as [|j]; simpl nth_error.
    + f_equal. lia.
    + rewrite IH by nia. f_equal. nia.
Qed.

Lemma slice_nth {A : Type} (l : list A) i size r :
  0 <= i -> 0 <= r < size ->
  nth_error (slice l i (i + size)) (Z.to_nat r)
  = nth_error l (Z.to_nat (i + r)).
Proof.
  intros Hi Hr. rewrite slice_window by lia.
  rewrite nth_error_firstn.
  destruct (Nat.ltb_spec (Z.to_nat r) (Z.to_nat size)); [|lia].
  rewrite nth_error_skipn. f_equal. lia.
Qed.

Lemma chunk_df_chunk_sizes df chunk_size chunks :
  0 < chunk_size ->
  chunk_df df chunk_size = Ok chunks ->
  Forall (fun c => len c <= chunk_size) chunks.
Proof.
  intros Hpos Hrun.
  destruct (Z.le_gt_cases (len df) chunk_size) as [Hsmall | Hlarge].
  - rewrite chunk_df_small in Hrun by assumption.
    injection Hrun as <-. now repeat constructor.
  - rewrite chunk_df_large in Hrun by lia. injection Hrun as <-.
    assert (Hlen : 0 <= len df) by (unfold len; lia).
    destruct (chunk_loop_sizes df chunk_size Hpos (Z.to_nat (len df)) 0)
      as (init & final & -> & Hinit & Hfinal); [lia | lia |].
    apply Forall_app. split.
    + eapply Forall_impl; [|exact Hinit]. simpl. intros c Hc. lia.
    + repeat constructor. lia.
Qed.

(** X1: for a positive [chunk_size], row number [k] of the table is found in
    chunk number [k / chunk_size] at position [k mod chunk_size]. *)
Theorem chunk_df_row_lookup (df : DataFrame) (chunk_size k : Z)
    (row : list cell) :
  0 < chunk_size ->
  0 <= k ->
  nth_error (rows df) (Z.to_nat k) = Some row ->
  exists chunks c,
    chunk_df df chunk_size = Ok chunks
    /\ nth_error chunks (Z.to_nat (k / chunk_size)) = Some c
    /\ nth_error (rows c) (Z.to_nat (k mod chunk_size)) = Some row.
Proof.
  intros Hpos Hk Hrow.
  assert (Hlt : k < len df).
  { unfold len.
    assert (Z.to_nat k < List.length (rows df))%nat
      by (apply nth_error_Some; congruence).
    lia. }
  destruct (Z.le_gt_cases (len df) chunk_size) as [Hsmall | Hlarge].
  - exists [df], df. rewrite chunk_df_small by assumption.
    rewrite Z.div_small, Z.mod_small by lia. simpl. auto.
  - rewrite chunk_df_large by lia.
    pose proof (Z.div_mod k chunk_size ltac:(lia)) as Hdm.
    pose proof (Z.mod_pos_bound k chunk_size Hpos) as Hmod.
    assert (Hq : 0 <= k / chunk_size) by (apply Z.div_pos; lia).
    exists (map (chunk_at df chunk_size)
              (range_up (Z.to_nat (len df)) 0 (len df) chunk_size)),
           (chunk_at df chunk_size (k / chunk_size * chunk_size)).
    split; [reflexivity|]. split.
    + rewrite nth_error_map.
      rewrite range_up_nth by (rewrite ?Z2Nat.id by lia; nia).
      simpl. rewrite Z2Nat.id by lia. reflexivity.
    + unfold chunk_at, iloc. cbn [rows].
      rewrite slice_nth by nia. rewrite <- Hrow. f_equal. f_equal. lia.
Qed.

(** Row 3 of the four-row table, cut by 2. *)
Lemma chunk_df_row_lookup_witness :
  0 < 2 /\ 0 <= 3
  /\ exists chunks c,
       chunk_df Demo.people 2 = Ok chunks
       /\ nth_error chunks 1 = Some c
       /\ nth_error (rows c) 1
          = Some [Text "Diana"; Int 28; Text "Boston"; Int 55000].
Proof.
  split; [lia|]. split; [lia|].
  exact (chunk_df_row_lookup Demo.people 2 3
           [Text "Diana"; Int 28; Text "Boston"; Int 55000]
           ltac:(lia) ltac:(lia) eq_refl).
Defined.

Lemma slice_map {A B : Type} (f : A -> B) (l : list A) i j :
  slice (map f l) i j = map f (slice l i j).
Proof.
  unfold slice. rewrite length_map, skipn_map, firstn_map. reflexivity.
Qed.

Lemma chunk_at_fillna value df chunk_size i :
  chunk_at (fillna value df) chunk_size i
  = fillna value (chunk_at df chunk_size i).
Proof.
  unfold chunk_at, iloc, fillna. cbn [rows columns].
  now rewrite slice_map.
Qed.

Lemma len_fillna value df : len (fillna value df) = len df.
Proof. unfold len, fillna. cbn [rows]. now rewrite length_map. Qed.

(** X2: filling the null cells and cutting into chunks commute, for every
    [chunk_size]: [chunk_df] of the filled table returns the filled chunks
    of the table, and fails exactly when [chunk_df] of the table does. *)
Theorem chunk_df_of_filled_table (value : string) (df : DataFrame)
    (chunk_size : Z) :
  chunk_df (fillna value df) chunk_size
  = match chunk_df df chunk_size with
    | Ok chunks => Ok (map (fillna value) chunks)
    | Raise e => Raise e
    end.
Proof.
  unfold chunk_df. rewrite len_fillna.
  destruct (len df <=? chunk_size); [reflexivity|].
  destruct (range 0 (len df) chunk_size) as [starts | e]; cbn [bind];
    [|reflexivity].
  f_equal. rewrite map_map. apply map_ext. intros i. apply chunk_at_fillna.
Qed.

(** X3: cutting a chunk again with the same positive size leaves it whole:
    every chunk [c] that [chunk_df] returns satisfies
    [chunk_df c chunk_size = [c]]. *)
Theorem chunk_df_of_a_chunk (df : DataFrame) (chunk_size : Z)
    (chunks : list DataFrame) :
  0 < chunk_size ->
  chunk_df df chunk_size = Ok chunks ->
  Forall (fun c => chunk_df c chunk_size = Ok [c]) chunks.
Proof.
  intros Hpos Hrun.
  eapply Forall_impl; [|exact (chunk_df_chunk_sizes _ _ _ Hpos Hrun)].
  intros c Hc. now apply chunk_df_small.
Qed.

Lemma chunk_df_of_a_chunk_witness :
  0 < 3
  /\ chunk_df Demo.people 3
     = Ok [chunk_at Demo.people 3 0; chunk_at Demo.people 3 3]
  /\ Forall (fun c => chunk_df c 3 = Ok [c])
       [chunk_at Demo.people 3 0; chunk_at Demo.people 3 3].
Proof.
  split; [lia|]. split; [reflexivity|].
  exact (chunk_df_of_a_chunk Demo.people 3 _ ltac:(lia) eq_refl).
Defined.

(* ===================================================================== *)
(** ** More on template rendering                                         *)
(* ===================================================================== *)

Lemma slength_app (s t : string) :
  String.length (s ++ t) = (String.length s + String.length t)%nat.
Proof. induction s; simpl; congruence. Qed.

Lemma join_length (sep p : string) (ps : list string) :
  String.length (join sep (p :: ps))
  = (list_sum (map String.length (p :: ps))
     + List.length ps * String.length sep)%nat.
Proof.
  revert p. induction ps as [|q ps IH]; intros p.
  - simpl. lia.
  - change (join sep (p :: q :: ps)) with (p ++ sep ++ join sep (q :: ps)).
    rewrite !slength_app, IH. simpl. lia.
Qed.

Lemma sapp_same_length (a b x y : string) :
  String.length a = String.length b -> a ++ x = b ++ y -> a = b.
Proof.
  revert b. induction a as [|c a IH]; intros [|c' b] Hlen H;
    try discriminate; [reflexivity|].
  simpl in *. injection H as -> H. f_equal. apply IH; congruence.
Qed.

(** X4: when the template contains the token, the rendering determines the
    data: two data strings that render to the same text are equal. *)
Theorem format_prompt_data_recoverable (template data1 data2 : string) :
  occurs placeholder template ->
  format_prompt data1 template = format_prompt data2 template ->
  data1 = data2.
Proof.
  intros Hocc Heq.
  destruct (template_pieces template) as (p & pieces & -> & Hfree).
  rewrite !format_prompt_join in Heq by assumption.
  destruct pieces as [|q rest].
  - exfalso. inversion Hfree as [|? ? Hp _]; subst. now apply Hp.
  - assert (Hlen : String.length data1 = String.length data2).
    { pose proof (f_equal String.length Heq) as Hl.
      rewrite !join_length in Hl. simpl in Hl. nia. }
    change (join data1 (p :: q :: rest))
      with (p ++ data1 ++ join data1 (q :: rest)) in Heq.
    change (join data2 (p :: q :: rest))
      with (p ++ data2 ++ join data2 (q :: rest)) in Heq.
    apply sapp_inv_head in Heq.
    exact (sapp_same_length _ _ _ _ Hlen Heq).
Qed.

Lemma format_prompt_data_recoverable_witness :
  occurs placeholder Demo.default_template
  /\ (forall data,
        format_prompt data Demo.default_template
        = format_prompt "X" Demo.default_template ->
        data = "X").
Proof.
  assert (H : occurs placeholder Demo.default_template)
    by (exists "Analyze this data: ", ""; reflexivity).
  split; [exact H|].
  intros data. exact (format_prompt_data_recoverable _ data "X" H).
Defined.

(* ===================================================================== *)
(** ** More on the summary                                                *)
(* ===================================================================== *)

Lemma dict_set_In {V : Type} (k : string) (v : V) (d : dict V) kv :
  In kv (dict_set k v d) -> kv = (k, v) \/ In kv d.
Proof.
  induction d as [|[k' v'] d IH]; simpl.
  - intros [<- | []]. now left.
  - destruct (String.eqb k' k); simpl.
    + intros [<- | H]; [now left | right; now right].
    + intros [<- | H]; [right; now left|].
      destruct (IH H); [now left | right; now right].
Qed.

Lemma dict_of_list_In {V : Type} (kvs : list (string * V)) kv :
  In kv (dict_of_list kvs) -> In kv kvs.
Proof.
  unfold dict_of_list.
  assert (G : forall acc, In kv (fold_left
                (fun d x => dict_set (fst x) (snd x) d) kvs acc) ->
              In kv acc \/ In kv kvs).
  { induction kvs as [|[k v] kvs IH]; intros acc H; [now left|].
    simpl in H. destruct (IH _ H) as [Hacc | Hin]; [|right; now right].
    destruct (dict_set_In _ _ _ _ Hacc) as [-> | Hacc'];
      [right; now left | now left]. }
  intros H. destruct (G [] H) as [[] | Hin]. exact Hin.
Qed.

Lemma dict_set_fresh {V : Type} (k : string) (v : V) (d : dict V) :
  ~ In k (dict_keys d) -> dict_set k v d = (d ++ [(k, v)])%list.
Proof.
  induction d as [|[k' v'] d IH]; intros Hfresh; [reflexivity|].
  simpl in *. destruct (String.eqb_spec k' k) as [-> | Hne].
  - exfalso. apply Hfresh. now left.
  - f_equal. apply IH. intros Hin. apply Hfresh. now right.
Qed.

(** Building a dictionary from pairs with distinct keys keeps the pairs and
    their order. *)
Lemma dict_of_list_distinct {V : Type} (kvs : list (string * V)) :
  NoDup (map fst kvs) -> dict_of_list kvs = kvs.
Proof.
  unfold dict_of_list.
  assert (G : forall acc,
             NoDup (map fst (acc ++ kvs)) ->
             fold_left (fun d x => dict_set (fst x) (snd x) d) kvs acc
             = (acc ++ kvs)%list).
  { induction kvs as [|[k v] kvs IH]; intros acc Hnd.
    - simpl. now rewrite app_nil_r.
    - simpl. rewrite dict_set_fresh.
      + rewrite IH; rewrite <- app_assoc; [reflexivity | exact Hnd].
      + rewrite map_app in Hnd. simpl in Hnd.
        apply NoDup_remove_2 in Hnd. intros Hin. apply Hnd.
        apply in_or_app. now left. }
  intros Hnd. exact (G [] Hnd).
Qed.

Lemma isnull_sum_keys df : map fst (isnull_sum df) = columns df.
Proof.
  unfold isnull_sum. rewrite map_map. cbn [fst].
  generalize 0%nat. induction (columns df) as [|c cs IH]; intros start;
    [reflexivity|].
  simpl. f_equal. apply IH.
Qed.

Lemma isnull_sum_bounds df col n :
  In (col, n) (isnull_sum df) -> 0 <= n <= len df.
Proof.
  unfold isnull_sum. intros H. apply in_map_iff in H as ([j c] & Heq & _).
  injection Heq as _ <-. unfold count_null, column_cells, len. cbn [fst].
  pose proof (filter_length_le isnull (map (fun r => nth j r NaN) (rows df))) as Hle.
  rewrite length_map in Hle. lia.
Qed.

Section SummaryFacts.

Context {source pyfloat : Type} (pd : Pandas source pyfloat).

(** X5: every missing-value count in a summary lies between 0 and the
    number of rows of the table, and belongs to a column of the table. *)
Theorem summary_missing_counts_bounded (df : DataFrame) (col : string)
    (n : Z) :
  In (col, n) (s_missing_values (get_data_summary pd df)) ->
  0 <= n <= s_rows (get_data_summary pd df) /\ In col (columns df).
Proof.
  cbn [get_data_summary s_missing_values s_rows]. intros H.
  apply dict_of_list_In in H. split.
  - now apply isnull_sum_bounds in H.
  - rewrite <- isnull_sum_keys. now apply (in_map fst) in H.
Qed.

(** X6: when the column labels are distinct, the summary lists the columns
    in table order: its missing-value entries are the per-column null
    counts, column by column, and its type entries pair the labels with
    the dtypes. *)
Theorem summary_lists_columns_in_order (df : DataFrame) :
  NoDup (columns df) ->
  s_missing_values (get_data_summary pd df) = isnull_sum df
  /\ dict_keys (s_missing_values (get_data_summary pd df)) = columns df
  /\ s_column_types (get_data_summary pd df)
     = combine (columns df) (dtypes pd df).
Proof.
  intros Hnd. cbn [get_data_summary s_missing_values s_column_types].
  assert (H1 : dict_of_list (isnull_sum df) = isnull_sum df)
    by (apply dict_of_list_distinct; now rewrite isnull_sum_keys).
  rewrite H1. split; [reflexivity|]. split; [apply isnull_sum_keys|].
  apply dict_of_list_distinct.
  assert (G : forall (ks : list string) (vs : list string),
             NoDup ks -> NoDup (map fst (combine ks vs))).
  { induction ks as [|k ks IH]; intros vs Hks; [constructor|].
    destruct vs as [|v vs]; [constructor|]. simpl.
    inversion Hks as [|? ? Hk Hks']; subst. constructor; [|now apply IH].
    intros Hin. apply Hk. apply in_map_iff in Hin as ([k' v'] & <- & Hin).
    now apply in_combine_l in Hin. }
  now apply G.
Qed.

End SummaryFacts.

Lemma summary_missing_counts_bounded_witness :
  In ("B", 1) (s_missing_values (get_data_summary Demo.pandas Demo.with_gap))
  /\ 0 <= 1 <= 2 /\ In "B" (columns Demo.with_gap).
Proof.
  assert (H : In ("B", 1)
                (s_missing_values (get_data_summary Demo.pandas Demo.with_gap)))
    by (right; left; reflexivity).
  split; [exact H|].
  exact (summary_missing_counts_bounded Demo.pandas Demo.with_gap "B" 1 H).
Defined.

Lemma summary_lists_columns_in_order_witness :
  NoDup (columns Demo.people)
  /\ dict_keys (s_missing_values (get_data_summary Demo.pandas Demo.people))
     = ["Name"; "Age"; "City"; "Salary"].
Proof.
  assert (H : NoDup (columns Demo.people)).
  { repeat constructor; simpl; intuition discriminate. }
  split; [exact H|].
  exact (proj1 (proj2 (summary_lists_columns_in_order Demo.pandas
                         Demo.people H))).
Defined.

(* ===================================================================== *)
(** ** More on reading a list of sheets                                   *)
(* ===================================================================== *)

Section DictFacts.

Context {V : Type}.
Implicit Types (d : dict V) (k x : string) (v : V).

Lemma dict_set_keys k v d x :
  In x (dict_keys (dict_set k v d)) <-> x = k \/ In x (dict_keys d).
Proof.
  induction d as [|[k' v'] d IH]; simpl.
  - intuition.
  - destruct (String.eqb_spec k' k) as [-> | Hne]; simpl.
    + intuition.
    + rewrite IH. intuition.
Qed.

Lemma dict_set_NoDup k v d :
  NoDup (dict_keys d) -> NoDup (dict_keys (dict_set k v d)).
Proof.
  induction d as [|[k' v'] d IH]; simpl; intros Hnd.
  - repeat constructor. intros [].
  - inversion Hnd as [|? ? Hk Hd]; subst.
    destruct (String.eqb_spec k' k) as [-> | Hne]; simpl.
    + now constructor.
    + constructor; [|now apply IH].
      intros Hin. apply dict_set_keys in Hin as [-> | Hin]; auto.
Qed.

Lemma dict_get_set k v d x :
  dict_get x (dict_set k v d)
  = if String.eqb k x then Some v else dict_get x d.
Proof.
  induction d as [|[k' v'] d IH]; simpl.
  - reflexivity.
  - destruct (String.eqb_spec k' k) as [-> | Hne]; simpl.
    + now destruct (String.eqb k x).
    + rewrite IH. destruct (String.eqb_spec k' x) as [-> | Hne'];
        [|reflexivity].
      destruct (String.eqb_spec k x); [congruence | reflexivity].
Qed.

Lemma dict_set_same k v d : dict_get k d = Some v -> dict_set k v d = d.
Proof.
  induction d as [|[k' v'] d IH]; simpl; [discriminate|].
  destruct (String.eqb_spec k' k) as [-> | Hne]; intros H.
  - now injection H as ->.
  - f_equal. now apply IH.
Qed.

End DictFacts.

Section ReadFacts.

Context {source pyfloat : Type} (pd : Pandas source pyfloat).
Variable file_path : source.

Local Abbreviation reads name df :=
  (read_excel pd file_path name false = Ok df).

Local Abbreviation load names acc :=
  (fold_left (keep_readable pd file_path) names acc).

Lemma keep_readable_keys acc name x :
  In x (dict_keys (keep_readable pd file_path acc name))
  <-> In x (dict_keys acc) \/ (x = name /\ exists df, reads name df).
Proof.
  unfold keep_readable.
  destruct (read_excel pd file_path name false) as [df | e] eqn:E.
  - rewrite dict_set_keys. split.
    + intros [-> | H]; [right; split; eauto | now left].
    + intros [H | [-> _]]; [now right | now left].
  - split; [now left|]. intros [H | [_ [df Hdf]]]; [exact H | discriminate].
Qed.

Lemma load_keys names : forall acc x,
  In x (dict_keys (load names acc))
  <-> In x (dict_keys acc) \/ (In x names /\ exists df, reads x df).
Proof.
  induction names as [|name names IH]; intros acc x; simpl.
  - intuition.
  - rewrite IH, keep_readable_keys. split.
    + intros [[H | [-> H]] | [H1 H2]]; auto.
    + intros [H | [[<- | H1] H2]]; auto.
Qed.

Lemma load_NoDup names : forall acc,
  NoDup (dict_keys acc) -> NoDup (dict_keys (load names acc)).
Proof.
  induction names as [|name names IH]; intros acc Hnd; [exact Hnd|].
  simpl. apply IH. unfold keep_readable.
  destruct (read_excel pd file_path name false); [|exact Hnd].
  now apply dict_set_NoDup.
Qed.

Lemma load_sound names : forall acc,
  (forall x df, dict_get x acc = Some df -> reads x df) ->
  forall x df, dict_get x (load names acc) = Some df -> reads x df.
Proof.
  induction names as [|name names IH]; intros acc Hacc; [exact Hacc|].
  simpl. apply IH. intros x df. unfold keep_readable.
  destruct (read_excel pd file_path name false) as [df' | e] eqn:E;
    [|apply Hacc].
  rewrite dict_get_set. destruct (String.eqb_spec name x) as [<- | Hne].
  - intros H. injection H as <-. exact E.
  - apply Hacc.
Qed.

Lemma load_complete names : forall acc x df,
  In x names -> reads x df -> dict_get x (load names acc) = Some df.
Proof.
  assert (Hkeep : forall ns acc x df,
             reads x df -> dict_get x acc = Some df ->
             dict_get x (load ns acc) = Some df).
  { induction ns as [|name ns IH]; intros acc x df Hx Hacc;
      [exact Hacc|].
    simpl. apply IH; [exact Hx|]. unfold keep_readable.
    destruct (read_excel pd file_path name false) as [df' | e] eqn:E;
      [|exact Hacc].
    rewrite dict_get_set. destruct (String.eqb_spec name x) as [<- | Hne];
      [congruence | exact Hacc]. }
  induction names as [|name names IH]; intros acc x df Hin Hx; [easy|].
  simpl. destruct Hin as [-> | Hin]; [|now apply IH].
  apply Hkeep; [exact Hx|]. unfold keep_readable. rewrite Hx.
  rewrite dict_get_set. now rewrite String.eqb_refl.
Qed.

(** X7: a list selector is read without failure; the sheet set holds each
    readable requested name once and nothing else, every sheet in it is
    what [read_excel] returned for its name, and one warning is printed
    for each request that could not be read. *)
Theorem list_selector_sheet_set (sheet_names : list string) :
  let r := read_sheets pd file_path (SheetList sheet_names) in
  exists all_sheets,
    outcome r = Ok all_sheets
    /\ NoDup (dict_keys all_sheets)
    /\ (forall name,
          In name (dict_keys all_sheets)
          <-> In name sheet_names /\ exists df, reads name df)
    /\ (forall name df, dict_get name all_sheets = Some df -> reads name df)
    /\ stdout r = flat_map (warning_for pd file_path) sheet_names.
Proof.
  intros r. subst r. rewrite read_sheets_list. cbn [outcome stdout].
  eexists. split; [reflexivity|].
  split; [apply load_NoDup; constructor|].
  split; [|split; [|reflexivity]].
  - intros name. rewrite load_keys. simpl. intuition.
  - apply load_sound. discriminate.
Qed.

(** X8: asking again for a name that was already requested changes nothing
    in the sheet set: the sheet keeps its place and its table. *)
Theorem list_selector_repeated_name (sheet_names : list string)
    (name : string) :
  In name sheet_names ->
  outcome (read_sheets pd file_path (SheetList (sheet_names ++ [name])))
  = outcome (read_sheets pd file_path (SheetList sheet_names)).
Proof.
  intros Hin. rewrite !read_sheets_list. cbn [outcome]. f_equal.
  rewrite fold_left_app. cbn [fold_left]. unfold keep_readable at 1.
  destruct (read_excel pd file_path name false) as [df | e] eqn:E;
    [|reflexivity].
  apply dict_set_same. now apply load_complete.
Qed.

End ReadFacts.

Lemma list_selector_repeated_name_witness :
  In "Sheet1" ["Sheet2"; "Sheet1"]
  /\ outcome (read_sheets Demo.pandas Demo.test_book
                (SheetList ["Sheet2"; "Sheet1"; "Sheet1"]))
     = Ok [("Sheet2", Demo.people); ("Sheet1", Demo.people)].
Proof.
  assert (H : In "Sheet1" ["Sheet2"; "Sheet1"]) by (simpl; auto).
  split; [exact H|].
  exact (list_selector_repeated_name Demo.pandas Demo.test_book
           ["Sheet2"; "Sheet1"] "Sheet1" H).
Defined.

(* ===================================================================== *)
(** ** More on the two conversions                                        *)
(* ===================================================================== *)

Section ConversionFacts.

Context {source pyfloat : Type} (pd : Pandas source pyfloat).

(** X9: a single name given as text and the same name given as a
    one-element list make the same run when the sheet can be read.  When
    it cannot, the text form fails with the reader's own message and
    prints nothing, while the list form prints a warning and fails with
    [NoSheetsLoaded]. *)
Theorem one_name_as_text_or_as_list
    (file_path : source) (name output_format : string) (chunk_size : Z)
    (prompt_template : string) (include_summary evaluate_formulas : bool) :
  let as_text :=
    excel_to_formatted_text pd file_path (OneSheet name) output_format
      chunk_size prompt_template include_summary evaluate_formulas in
  let as_list :=
    excel_to_formatted_text pd file_path (SheetList [name]) output_format
      chunk_size prompt_template include_summary evaluate_formulas in
  match read_excel pd file_path name false with
  | Ok _ => as_text = as_list
  | Raise e =>
      as_text = mkRun [] (Raise (Exception (formatted_prefix ++ str_exn e)))
      /\ as_list
         = mkRun [warning name e] (Raise (NoSheetsLoaded formatted_prefix))
  end.
Proof.
  intros as_text as_list. subst as_text as_list.
  unfold excel_to_formatted_text. rewrite read_sheets_list.
  cbn [read_sheets flat_map fold_left stdout outcome].
  unfold keep_readable, warning_for.
  destruct (read_excel pd file_path name false) as [df | e];
    [reflexivity | split; reflexivity].
Qed.

(** X10: without the summary, and with a format whose [.lower()] is one of
    the three names, the text handed to the template is one block per
    non-empty sheet, in sheet order, separated by blank lines; each block
    is the sheet header followed by the rendering of that sheet after
    [fillna], by the renderer of that name: [to_csv] for [csv], [to_json]
    for [json], [to_markdown] for [markdown]. *)
Theorem formatted_text_without_summary
    (file_path : source) (sheet_names : sheet_selector)
    (output_format : string) (chunk_size : Z) (prompt_template : string)
    (evaluate_formulas : bool) (all_sheets : dict DataFrame)
    (name : string) (render : DataFrame -> string) :
  outcome (read_sheets pd file_path sheet_names) = Ok all_sheets ->
  all_sheets <> [] ->
  In (name, render)
     [("csv", to_csv pd); ("json", to_json pd); ("markdown", to_markdown pd)] ->
  str_lower pd output_format = name ->
  outcome (excel_to_formatted_text pd file_path sheet_names
             output_format chunk_size prompt_template false
             evaluate_formulas)
  = Ok (format_prompt
          (join (nl ++ nl)
             (map (sheet_block render) (non_empty_sheets all_sheets)))
          prompt_template).
Proof.
  intros Hload Hne Hin Hl.
  pose proof (convert_to_format_named pd _ _ _ Hin Hl) as Hr.
  rewrite (formatted_outcome pd _ _ _ _ _ _ _ _ Hload).
  unfold formatted_body. destruct all_sheets; [congruence|].
  cbn [dict_is_empty]. now rewrite (format_sheets_supported pd _ render _ Hr).
Qed.

(** X11: with a template that does not contain the token, a conversion
    that returns at all returns the template itself; the data is dropped. *)
Theorem formatted_text_with_token_free_template
    (file_path : source) (sheet_names : sheet_selector)
    (output_format : string) (chunk_size : Z) (prompt_template : string)
    (include_summary evaluate_formulas : bool) (text : string) :
  ~ occurs placeholder prompt_template ->
  outcome (excel_to_formatted_text pd file_path sheet_names output_format
             chunk_size prompt_template include_summary evaluate_formulas)
  = Ok text ->
  text = prompt_template.
Proof.
  intros Hfree H. unfold excel_to_formatted_text in H. cbn [outcome] in H.
  destruct (outcome (read_sheets pd file_path sheet_names)) as [sheets | e];
    cbn [bind try_except] in H; [|discriminate].
  unfold formatted_body in H.
  destruct (dict_is_empty sheets); [discriminate|].
  destruct (format_sheets pd output_format sheets []); cbn [bind try_except] in H;
    [|discriminate].
  injection H as <-.
  match goal with |- format_prompt ?d _ = _ =>
    apply (format_prompt_join d [prompt_template]) end.
  now constructor.
Qed.

(** X12: how [excel_to_formatted_text] fails.  Every exception that leaves
    it is a plain [Exception] whose message starts with the prefix of the
    function.  When reading the workbook raises, the reader's message
    follows the prefix; when reading returns no sheet, the message is the
    one of [NoSheetsLoaded]; when a non-empty sheet was read and
    [output_format.lower()] is none of the three names, it is the one of
    [UnsupportedFormat]. *)
Theorem formatted_text_failures
    (file_path : source) (sheet_names : sheet_selector)
    (output_format : string) (chunk_size : Z) (prompt_template : string)
    (include_summary evaluate_formulas : bool) :
  let r := excel_to_formatted_text pd file_path sheet_names output_format
             chunk_size prompt_template include_summary evaluate_formulas in
  (forall e,
      outcome r = Raise e ->
      exists msg, e = Exception (formatted_prefix ++ msg))
  /\ (forall e0,
        outcome (read_sheets pd file_path sheet_names) = Raise e0 ->
        outcome r = Raise (Exception (formatted_prefix ++ str_exn e0)))
  /\ (outcome (read_sheets pd file_path sheet_names) = Ok [] ->
      outcome r = Raise (NoSheetsLoaded formatted_prefix))
  /\ (forall all_sheets,
        outcome (read_sheets pd file_path sheet_names) = Ok all_sheets ->
        non_empty_sheets all_sheets <> [] ->
        is_supported pd output_format = false ->
        outcome r = Raise (UnsupportedFormat formatted_prefix output_format)).
Proof.
  intros r. subst r. split; [|split; [|split]].
  - intros e H. unfold excel_to_formatted_text in H. cbn [outcome] in H.
    match type of H with try_except _ ?body = _ => destruct body as [t | e1] end;
      cbn [try_except] in H; [discriminate|].
    injection H as <-. now exists (str_exn e1).
  - intros e0 H. unfold excel_to_formatted_text. cbn [outcome].
    now rewrite H.
  - intros H. now rewrite (formatted_outcome pd _ _ _ _ _ _ _ _ H).
  - intros all_sheets Hload Hsome Hfmt.
    rewrite (formatted_outcome pd _ _ _ _ _ _ _ _ Hload).
    unfold formatted_body.
    destruct all_sheets as [|kv rest]; [now elim Hsome|]. cbn [dict_is_empty].
    now rewrite (format_sheets_unsupported pd _ _ _ Hfmt Hsome).
Qed.

(** X13: [excel_to_chunked_text] never returns a chunk.  Whenever it
    returns, it returns the empty list; its run does not depend on the
    format, the chunk size, the template or the summary flag; and its
    outcome is determined by what was read: the reader's failure with the
    prefix in front; [NoSheetsLoaded] when no sheet was read; the empty
    list when every sheet read is empty; and the re-raised
    [UnboundLocalError] as soon as one sheet read is not empty. *)
Theorem chunked_text_never_returns_a_chunk
    (file_path : source) (sheet_names : sheet_selector)
    (output_format : string) (chunk_size : Z) (prompt_template : string)
    (include_summary : bool) :
  let r := excel_to_chunked_text pd file_path sheet_names output_format
             chunk_size prompt_template include_summary in
  (forall chunks, outcome r = Ok chunks -> chunks = [])
  /\ (forall output_format' chunk_size' prompt_template' include_summary',
        excel_to_chunked_text pd file_path sheet_names output_format'
          chunk_size' prompt_template' include_summary' = r)
  /\ outcome r
     = match outcome (read_sheets pd file_path sheet_names) with
       | Raise e0 => Raise (Exception (chunked_prefix ++ str_exn e0))
       | Ok [] => Raise (NoSheetsLoaded chunked_prefix)
       | Ok ((_ :: _) as all_sheets) =>
           match non_empty_sheets all_sheets with
           | [] => Ok []
           | _ :: _ =>
               Raise (Exception
                        (chunked_prefix
                           ++ str_exn (UnboundLocalError "chunk_df")))
           end
       end.
Proof.
  intros r. subst r. unfold excel_to_chunked_text. cbn [outcome].
  destruct (outcome (read_sheets pd file_path sheet_names))
    as [sheets | e0]; cbn [bind].
  - split; [|split].
    + intros chunks. rewrite chunked_body_unfold.
      destruct (dict_is_empty sheets); [discriminate|].
      destruct (non_empty_sheets sheets); cbn; congruence.
    + intros. now rewrite !chunked_body_unfold.
    + rewrite chunked_body_unfold.
      destruct sheets as [|kv rest]; [reflexivity|].
      change (dict_is_empty (kv :: rest)) with false. cbv beta iota.
      destruct (non_empty_sheets (kv :: rest)); reflexivity.
  - split; [discriminate|]. split; reflexivity.
Qed.

End ConversionFacts.

Lemma formatted_text_without_summary_witness :
  outcome (read_sheets Demo.pandas Demo.test_book AllSheets)
  = Ok [("Sheet1", Demo.people); ("Sheet2", Demo.people)]
  /\ str_lower Demo.pandas "JSON" = "json"
  /\ outcome (excel_to_formatted_text Demo.pandas Demo.test_book AllSheets
                "JSON" 5000 Demo.default_template false false)
     = Ok (format_prompt
             (join (nl ++ nl)
                [sheet_block Demo.demo_to_json ("Sheet1", Demo.people);
                 sheet_block Demo.demo_to_json ("Sheet2", Demo.people)])
             Demo.default_template).
Proof.
  split; [reflexivity|]. split; [reflexivity|].
  apply (formatted_text_without_summary Demo.pandas Demo.test_book
           AllSheets "JSON" 5000 Demo.default_template false
           [("Sheet1", Demo.people); ("Sheet2", Demo.people)]
           "json" Demo.demo_to_json eq_refl).
  - discriminate.
  - right. left. reflexivity.
  - reflexivity.
Defined.

Lemma formatted_text_with_token_free_template_witness :
  ~ occurs placeholder "No placeholder"
  /\ outcome (excel_to_formatted_text Demo.pandas Demo.test_book AllSheets
                "csv" 5000 "No placeholder" true false)
     = Ok "No placeholder".
Proof.
  assert (H : ~ occurs placeholder "No placeholder")
    by (apply contains_false; reflexivity).
  split; [exact H|].
  destruct (outcome (excel_to_formatted_text Demo.pandas Demo.test_book
                       AllSheets "csv" 5000 "No placeholder" true false))
    as [text | e] eqn:E; [|discriminate E].
  f_equal.
  exact (formatted_text_with_token_free_template Demo.pandas Demo.test_book
           AllSheets "csv" 5000 "No placeholder" true false text H E).
Defined.

(** A sheet name that is not in the workbook, given as text: the reader's
    message is passed on. *)
Lemma formatted_text_failures_witness :
  outcome (read_sheets Demo.pandas Demo.test_book (OneSheet "Missing"))
  = Raise (ValueError "Worksheet named 'Missing' not found")
  /\ outcome (excel_to_formatted_text Demo.pandas Demo.test_book
                (OneSheet "Missing") "csv" 5000 Demo.default_template false
                false)
     = Raise (Exception
                (formatted_prefix ++ "Worksheet named 'Missing' not found")).
Proof.
  split; [reflexivity|].
  exact (proj1 (proj2 (formatted_text_failures Demo.pandas Demo.test_book
                         (OneSheet "Missing") "csv" 5000
                         Demo.default_template false false))
           (ValueError "Worksheet named 'Missing' not found") eq_refl).
Defined.

(** The workbook whose only sheet is empty: the empty list comes back. *)
Lemma chunked_text_never_returns_a_chunk_witness :
  outcome (excel_to_chunked_text Demo.pandas Demo.empty_book AllSheets "csv" 2
             Demo.default_template true)
  = Ok [].
Proof.
  destruct (outcome (excel_to_chunked_text Demo.pandas Demo.empty_book
                       AllSheets "csv" 2 Demo.default_template true))
    as [chunks | e] eqn:E; [|discriminate E].
  f_equal.
  exact (proj1 (chunked_text_never_returns_a_chunk Demo.pandas
                  Demo.empty_book AllSheets "csv" 2 Demo.default_template
                  true) chunks E).
Defined.

(* ===================================================================== *)
(** ** The command line                                                   *)
(* ===================================================================== *)

Section StripFacts.

Implicit Types (s t : string) (c : ascii).

Lemma lstrip_head s :
  lstrip s = "" \/ exists c t, lstrip s = String c t /\ is_space c = false.
Proof.
  induction s as [|c s IH]; [now left|].
  simpl. destruct (is_space c) eqn:E; [exact IH|].
  right. exists c, s. auto.
Qed.

Lemma rstrip_idempotent s : rstrip (rstrip s) = rstrip s.
Proof.
  induction s as [|c s IH]; [reflexivity|].
  simpl. destruct (rstrip s) as [|c' r] eqn:E.
  - destruct (is_space c) eqn:Hc; [reflexivity|]. simpl. now rewrite Hc.
  - simpl. simpl in IH. now rewrite IH.
Qed.

Lemma rstrip_keeps_head c t :
  is_space c = false -> exists r, rstrip (String c t) = String c r.
Proof.
  intros Hc. simpl. destruct (rstrip t) as [|c' r].
  - rewrite Hc. now exists "".
  - now exists (String c' r).
Qed.

Lemma strip_idempotent s : strip (strip s) = strip s.
Proof.
  unfold strip.
  destruct (lstrip_head s) as [-> | (c & t & -> & Hc)]; [reflexivity|].
  destruct (rstrip_keeps_head c t Hc) as [r Hr]. rewrite Hr.
  cbn [lstrip]. rewrite Hc, <- Hr. apply rstrip_idempotent.
Qed.

Lemma mem_char_lstrip c s : mem_char c (lstrip s) = true -> mem_char c s = true.
Proof.
  induction s as [|c' s IH]; [easy|].
  simpl. destruct (is_space c'); [|easy].
  intros H. destruct (ascii_dec c c'); [reflexivity | now apply IH].
Qed.

Lemma mem_char_rstrip c s : mem_char c (rstrip s) = true -> mem_char c s = true.
Proof.
  induction s as [|c' s IH]; [easy|].
  simpl. destruct (rstrip s) as [|c'' r].
  - destruct (is_space c'); [discriminate|]. simpl.
    destruct (ascii_dec c c'); [reflexivity | discriminate].
  - simpl. destruct (ascii_dec c c'); [reflexivity | exact IH].
Qed.

Lemma split_on_not_nil sep s : split_on sep s <> [].
Proof.
  destruct s as [|c s]; simpl; [discriminate|].
  destruct (Ascii.eqb c sep); [discriminate|].
  destruct (split_on sep s); discriminate.
Qed.

Lemma split_on_free sep s :
  Forall (fun p => mem_char sep p = false) (split_on sep s).
Proof.
  induction s as [|c s IH]; simpl; [now repeat constructor|].
  destruct (Ascii.eqb_spec c sep) as [-> | Hne]; [now constructor|].
  destruct (split_on sep s) as [|p ps]; simpl.
  - repeat constructor. simpl.
    destruct (ascii_dec sep c); [congruence | reflexivity].
  - inversion IH as [|? ? Hp Hps]; subst. constructor; [|exact Hps].
    simpl. destruct (ascii_dec sep c); [congruence | exact Hp].
Qed.

Lemma split_on_piece sep p : forall s,
  mem_char sep p = false ->
  split_on sep (p ++ String sep s) = p :: split_on sep s.
Proof.
  induction p as [|c p IH]; intros s Hp; simpl.
  - now rewrite Ascii.eqb_refl.
  - simpl in Hp. destruct (ascii_dec sep c) as [|Hne]; [discriminate|].
    destruct (Ascii.eqb_spec c sep); [congruence|].
    now rewrite IH.
Qed.

Lemma split_on_whole sep p :
  mem_char sep p = false -> split_on sep p = [p].
Proof.
  induction p as [|c p IH]; intros Hp; [reflexivity|].
  simpl in *. destruct (ascii_dec sep c) as [|Hne]; [discriminate|].
  destruct (Ascii.eqb_spec c sep); [congruence|].
  now rewrite IH.
Qed.

(** [sep.join(names).split(sep)] gives the names back. *)
Lemma split_on_join sep (names : list string) :
  names <> [] ->
  Forall (fun p => mem_char sep p = false) names ->
  split_on sep (join (String sep "") names) = names.
Proof.
  induction names as [|p [|q rest] IH]; intros Hne Hall; [congruence| |].
  - inversion Hall; subst. now apply split_on_whole.
  - inversion Hall as [|? ? Hp Hrest]; subst.
    change (join (String sep "") (p :: q :: rest))
      with (p ++ String sep (join (String sep "") (q :: rest))).
    rewrite split_on_piece by exact Hp. f_equal.
    apply IH; [discriminate | exact Hrest].
Qed.

(** [sep.join(s.split(sep))] gives the text back. *)
Lemma join_split_on sep s : join (String sep "") (split_on sep s) = s.
Proof.
  induction s as [|c s IH]; [reflexivity|].
  cbn [split_on]. pose proof (split_on_not_nil sep s) as Hne.
  destruct (split_on sep s) as [|p ps] eqn:E; [congruence|].
  destruct (Ascii.eqb_spec c sep) as [-> | _].
  - change (join (String sep "") ("" :: p :: ps))
      with (String sep (join (String sep "") (p :: ps))).
    now rewrite IH.
  - rewrite <- IH. now destruct ps.
Qed.

Lemma lstrip_suffix s : exists a, s = a ++ lstrip s.
Proof.
  induction s as [|c s [a IH]]; [now exists ""|].
  cbn [lstrip]. destruct (is_space c).
  - exists (String c a). cbn [String.append]. now rewrite <- IH.
  - now exists "".
Qed.

Lemma rstrip_prefix s : exists b, s = rstrip s ++ b.
Proof.
  induction s as [|c s [b IH]]; [now exists ""|].
  cbn [rstrip]. destruct (rstrip s) as [|c' r].
  - destruct (is_space c).
    + now exists (String c s).
    + exists b. cbn [String.append] in *. now rewrite <- IH.
  - exists b. cbn [String.append] in *. now rewrite <- IH.
Qed.

(** What [strip] keeps is a contiguous part of its argument. *)
Lemma strip_within s : exists a b, s = a ++ strip s ++ b.
Proof.
  unfold strip. destruct (lstrip_suffix s) as [a Ha].
  destruct (rstrip_prefix (lstrip s)) as [b Hb].
  exists a, b. now rewrite <- Hb.
Qed.

Lemma mem_char_append c s t :
  mem_char c (s ++ t) = mem_char c s || mem_char c t.
Proof.
  induction s as [|c' s IH]; [reflexivity|].
  cbn [String.append mem_char]. now destruct (ascii_dec c c').
Qed.

Lemma mem_char_within c a m b :
  mem_char c (a ++ m ++ b) = false -> mem_char c m = false.
Proof.
  rewrite !mem_char_append. intros H.
  apply orb_false_iff in H as [_ H]. now apply orb_false_iff in H as [H _].
Qed.

End StripFacts.

(** X14: the names parsed from [--sheets] are the results of [.strip()] on
    the pieces of the option value between its commas, in order: the
    pieces hold no comma and, joined by commas, give the value back.  There
    is at least one name.  As [.strip()] returns a contiguous part of its
    argument, no name holds a comma; as stripping twice is stripping once,
    stripping a name again changes nothing. *)
Theorem parsed_sheet_names_are_clean (host : Cli.Host) (sheets : string) :
  let names := Cli.parse_sheet_names host sheets in
  (exists pieces,
      join "," pieces = sheets
      /\ Forall (fun p => mem_char ","%char p = false) pieces
      /\ names = map (Cli.str_strip host) pieces)
  /\ names <> []
  /\ ((forall s, exists a b, s = a ++ Cli.str_strip host s ++ b) ->
      Forall (fun n => mem_char ","%char n = false) names)
  /\ ((forall s, Cli.str_strip host (Cli.str_strip host s)
                 = Cli.str_strip host s) ->
      Forall (fun n => Cli.str_strip host n = n) names).
Proof.
  intros names. subst names. unfold Cli.parse_sheet_names.
  pose proof (split_on_free ","%char sheets) as Hfree.
  split; [|split; [|split]].
  - exists (split_on ","%char sheets).
    split; [apply join_split_on | split; [exact Hfree | reflexivity]].
  - pose proof (split_on_not_nil ","%char sheets).
    destruct (split_on ","%char sheets); [congruence | discriminate].
  - intros Hwithin. apply Forall_map.
    eapply Forall_impl; [|exact Hfree]. cbn beta. intros piece Hpiece.
    destruct (Hwithin piece) as (a & b & E).
    rewrite E in Hpiece. now apply mem_char_within in Hpiece.
  - intros Hidem. apply Forall_map, Forall_forall. intros piece _.
    apply Hidem.
Qed.

Lemma parsed_sheet_names_are_clean_witness :
  Cli.parse_sheet_names DemoHost.host "Sheet1, Sheet2 ,,x"
  = ["Sheet1"; "Sheet2"; ""; "x"]
  /\ Forall (fun n => mem_char ","%char n = false)
       (Cli.parse_sheet_names DemoHost.host "Sheet1, Sheet2 ,,x")
  /\ Forall (fun n => Cli.str_strip DemoHost.host n = n)
       (Cli.parse_sheet_names DemoHost.host "Sheet1, Sheet2 ,,x").
Proof.
  split; [reflexivity|].
  destruct (parsed_sheet_names_are_clean DemoHost.host "Sheet1, Sheet2 ,,x")
    as (_ & _ & Hcomma & Hstable).
  split.
  - apply Hcomma. exact strip_within.
  - apply Hstable. exact strip_idempotent.
Defined.

(** X15: writing sheet names that hold no comma and that [.strip()] leaves
    as they are as one comma-separated option value and parsing it gives
    the same names back as a list selector, as long as the value is not
    empty. *)
Theorem sheet_names_round_trip (host : Cli.Host) (names : list string) :
  Forall (fun n => mem_char ","%char n = false /\ Cli.str_strip host n = n)
    names ->
  join "," names <> "" ->
  Cli.sheet_names_of host (Some (join "," names)) = SheetList names.
Proof.
  intros Hall Hne.
  assert (Hnames : names <> []) by (intros ->; now apply Hne).
  unfold Cli.sheet_names_of.
  destruct (join "," names) as [|c s] eqn:E; [congruence|].
  rewrite <- E. f_equal. unfold Cli.parse_sheet_names.
  rewrite split_on_join.
  - clear E Hne Hnames. induction Hall as [|n ns [_ Hn] _ IH]; [reflexivity|].
    simpl. now rewrite Hn, IH.
  - exact Hnames.
  - eapply Forall_impl; [|exact Hall]. simpl. tauto.
Qed.

Lemma sheet_names_round_trip_witness :
  Forall (fun n => mem_char ","%char n = false
                   /\ Cli.str_strip DemoHost.host n = n)
    ["Employee_Data"; "Financial Data"]
  /\ join "," ["Employee_Data"; "Financial Data"] <> ""
  /\ Cli.sheet_names_of DemoHost.host (Some "Employee_Data,Financial Data")
     = SheetList ["Employee_Data"; "Financial Data"].
Proof.
  assert (H1 : Forall (fun n => mem_char ","%char n = false
                                /\ Cli.str_strip DemoHost.host n = n)
                 ["Employee_Data"; "Financial Data"])
    by (repeat constructor).
  assert (H2 : join "," ["Employee_Data"; "Financial Data"] <> "")
    by discriminate.
  split; [exact H1|]. split; [exact H2|].
  exact (sheet_names_round_trip DemoHost.host _ H1 H2).
Defined.

Lemma enumerate_from_nth {A : Type} (l : list A) : forall start i x,
  nth_error l i = Some x ->
  nth_error (enumerate_from start l) i = Some (start + Z.of_nat i, x).
Proof.
  induction l as [|y l IH]; intros start i x H; [now destruct i|].
  destruct i as [|i]; simpl in *.
  - injection H as ->. now rewrite Z.add_0_r.
  - rewrite (IH _ _ _ H). f_equal. f_equal. lia.
Qed.


Section CliFacts.

Context {pyfloat : Type} (pd : Pandas string pyfloat)
        (wb : Workbooks string) (host : Cli.Host).

Local Abbreviation main := (Cli.main pd wb host).
Local Abbreviation usable := (usable_input wb host).

(** The sheets [main] hands to the conversions. *)
Local Abbreviation selector a := (Cli.sheet_names_of host (Cli.sheets a)).

Local Abbreviation formatted_run a :=
  (excel_to_formatted_text pd (Cli.input_file a) (selector a) (Cli.format a)
     (Cli.chunk_size a) (Cli.prompt_template a) (Cli.summary a)
     (Cli.evaluate_formulas a)).

Local Abbreviation chunked_run a :=
  (excel_to_chunked_text pd (Cli.input_file a) (selector a) (Cli.format a)
     (Cli.chunk_size a) (Cli.prompt_template a) (Cli.summary a)).

(** A run ends well: the status is 0 or 1, it is 0 exactly when nothing
    went to the error stream, and a file counts as saved only under the
    requested name, after a successful write, with status 0. *)
Local Abbreviation ends_well a p :=
  ((Cli.p_exit p = 0 \/ Cli.p_exit p = 1)
   /\ (Cli.p_exit p = 0 <-> Cli.p_stderr p = [])
   /\ (forall path text,
         Cli.p_saved p = Some (path, text) ->
         path = Cli.output a
         /\ Cli.p_exit p = 0
         /\ exists u, Cli.write_text host path text = Ok u)).

Ltac ended :=
  cbn [Cli.p_exit Cli.p_stderr Cli.p_saved];
  repeat split; intros; try discriminate; try lia; auto.

Lemma save_ends_well a printed text : ends_well a (Cli.save host a printed text).
Proof.
  unfold Cli.save.
  destruct (Cli.write_text host (Cli.output a) text) as [u | e] eqn:E; ended.
  - match goal with H : Some _ = Some _ |- _ => now injection H as <- <- end.
  - match goal with H : Some _ = Some _ |- _ => injection H as <- <- end.
    now exists u.
Qed.

Lemma conversion_failed_ends_well a printed e :
  ends_well a (Cli.conversion_failed host a printed e).
Proof. unfold Cli.conversion_failed. ended. Qed.

Lemma convert_ends_well a printed : ends_well a (Cli.convert pd host a printed).
Proof.
  unfold Cli.convert. destruct (Cli.chunk a).
  - destruct (outcome (chunked_run a));
      [apply save_ends_well | apply conversion_failed_ends_well].
  - destruct (outcome (formatted_run a));
      [apply save_ends_well | apply conversion_failed_ends_well].
Qed.

Lemma main_usable a :
  usable a ->
  main a
  = let printed :=
      Cli.when (Cli.verbose a) ["✅ Valid Excel file: " ++ Cli.input_file a] in
    if Cli.list_sheets a then
      match detect_sheets wb (Cli.input_file a) with
      | Ok names =>
          Cli.mkProcess
            (Cli.prints printed
               (("Available sheets in '" ++ Cli.input_file a ++ "':")
                  :: map Cli.numbered (enumerate_from 1 names)))
            [] None 0
      | Raise e =>
          Cli.mkProcess printed ["Error listing sheets: " ++ str_exn e] None 1
      end
    else if Cli.validate a then
      Cli.mkProcess
        (Cli.prints printed
           ["✅ '" ++ Cli.input_file a ++ "' is a valid Excel file."])
        [] None 0
    else
      Cli.convert pd host a
        (Cli.prints printed
           (Cli.when (Cli.verbose a && Cli.sheets_given (Cli.sheets a))
              ["📋 Processing sheets: "
                 ++ join ", "
                      (match Cli.sheets a with
                       | Some s => Cli.parse_sheet_names host s
                       | None => []
                       end)])).
Proof.
  intros [Hex Hval]. unfold Cli.main. now rewrite Hex, Hval.
Qed.

Lemma chunked_outcome_nil file_path sheet_names output_format chunk_size
    prompt_template include_summary chunks :
  outcome (excel_to_chunked_text pd file_path sheet_names output_format
             chunk_size prompt_template include_summary) = Ok chunks ->
  chunks = [].
Proof.
  unfold excel_to_chunked_text. cbn [outcome].
  destruct (outcome (read_sheets pd file_path sheet_names)) as [sheets | e];
    cbn [bind try_except]; [|discriminate].
  rewrite chunked_body_unfold.
  destruct (dict_is_empty sheets); [discriminate|].
  destruct (non_empty_sheets sheets); cbn; congruence.
Qed.

(** X16: for every namespace of arguments that [parser.parse_args()]
    returns, the rest of [main] (lines 102-199) exits with status 0 or 1;
    the status is 0 exactly when nothing was written to the error stream;
    and a file is saved only under the requested output name, with the text
    of a write that succeeded, and then the status is 0.  (A command line
    that argparse rejects at line 100 never reaches this code: argparse
    exits with status 2 by itself.) *)
Theorem cli_exit_status (a : Cli.Args) :
  let p := main a in
  (Cli.p_exit p = 0 \/ Cli.p_exit p = 1)
  /\ (Cli.p_exit p = 0 <-> Cli.p_stderr p = [])
  /\ (forall path text,
        Cli.p_saved p = Some (path, text) ->
        path = Cli.output a
        /\ Cli.p_exit p = 0
        /\ exists u, Cli.write_text host path text = Ok u).
Proof.
  cbv zeta. unfold Cli.main.
  destruct (negb (Cli.path_exists host (Cli.input_file a))); [ended|].
  destruct (negb (validate_excel_file wb (Cli.input_file a))); [ended|].
  destruct (Cli.list_sheets a).
  - destruct (detect_sheets wb (Cli.input_file a)); ended.
  - destruct (Cli.validate a); [ended|]. apply convert_ends_well.
Qed.

(** X17: when the input file does not exist or is not a readable workbook,
    the script prints one line on the error stream and nothing else, saves
    nothing and exits with status 1, whatever the other options are. *)
Theorem cli_rejects_unusable_input (a : Cli.Args) :
  Cli.path_exists host (Cli.input_file a) = false
  \/ read_excel_probe wb (Cli.input_file a) <> Ok tt ->
  let p := main a in
  Cli.p_exit p = 1
  /\ Cli.p_stdout p = []
  /\ Cli.p_saved p = None
  /\ List.length (Cli.p_stderr p) = 1%nat.
Proof.
  intros H. cbv zeta. unfold Cli.main.
  destruct (Cli.path_exists host (Cli.input_file a)) eqn:Hex; cbn [negb];
    [|now ended].
  destruct H as [H | H]; [discriminate|].
  unfold validate_excel_file.
  destruct (read_excel_probe wb (Cli.input_file a)) as [[] | e];
    [congruence | now ended].
Qed.

(** X18: with [--list-sheets] on a usable input nothing is converted or
    saved.  If the sheet names can be read, the script prints a heading and
    one line per sheet, in workbook order and numbered from 1, and exits
    with status 0; otherwise it reports the failure and exits with 1. *)
Theorem cli_list_sheets (a : Cli.Args) :
  usable a ->
  Cli.list_sheets a = true ->
  let p := main a in
  Cli.p_saved p = None
  /\ match excel_file_sheet_names wb (Cli.input_file a) with
     | Ok names =>
         Cli.p_exit p = 0
         /\ exists lines,
              Cli.p_stdout p
              = Cli.prints
                  (Cli.when (Cli.verbose a)
                     ["✅ Valid Excel file: " ++ Cli.input_file a])
                  (("Available sheets in '" ++ Cli.input_file a ++ "':")
                     :: lines)
              /\ List.length lines = List.length names
              /\ forall i name,
                   nth_error names i = Some name ->
                   nth_error lines i
                   = Some ("  " ++ str_of_Z (Z.of_nat i + 1) ++ ". " ++ name)
     | Raise e =>
         Cli.p_exit p = 1
         /\ Cli.p_stderr p
            = ["Error listing sheets: Could not read Excel file: "
                 ++ str_exn e]
     end.
Proof.
  intros Hu Hlist. cbv zeta. rewrite (main_usable a Hu). cbv zeta.
  rewrite Hlist. unfold detect_sheets.
  destruct (excel_file_sheet_names wb (Cli.input_file a)) as [names | e];
    cbn [Cli.p_saved Cli.p_exit Cli.p_stdout Cli.p_stderr].
  - split; [reflexivity|]. split; [reflexivity|].
    exists (map Cli.numbered (enumerate_from 1 names)).
    split; [reflexivity|]. split.
    + rewrite length_map. clear. generalize 1.
      induction names; intros; simpl; auto.
    + intros i name Hi. rewrite nth_error_map.
      rewrite (enumerate_from_nth names 1 i name Hi). cbn [option_map].
      unfold Cli.numbered. cbn [fst snd].
      now replace (1 + Z.of_nat i) with (Z.of_nat i + 1) by lia.
  - repeat split; reflexivity.
Qed.

(** X19: without [--chunk], [--list-sheets] and [--validate], on a usable
    input, the script saves a text under the output name exactly when
    [excel_to_formatted_text] returns that text and writing it succeeds;
    the saved text is the returned text, unchanged. *)
Theorem cli_saves_the_formatted_text (a : Cli.Args) (text : string) :
  usable a ->
  Cli.list_sheets a = false ->
  Cli.validate a = false ->
  Cli.chunk a = false ->
  Cli.p_saved (main a) = Some (Cli.output a, text)
  <-> outcome (formatted_run a) = Ok text
      /\ exists u, Cli.write_text host (Cli.output a) text = Ok u.
Proof.
  intros Hu Hlist Hval Hchunk. rewrite (main_usable a Hu). cbv zeta.
  rewrite Hlist, Hval. unfold Cli.convert. rewrite Hchunk.
  destruct (outcome (formatted_run a)) as [t | e].
  - unfold Cli.save.
    destruct (Cli.write_text host (Cli.output a) t) as [u | e] eqn:E;
      cbn [Cli.p_saved].
    + split.
      * intros H. injection H as <-. split; [reflexivity | now exists u].
      * intros [H _]. now injection H as <-.
    + split; [discriminate|]. intros [H [u Hw]]. injection H as <-. congruence.
  - cbn [Cli.p_saved Cli.conversion_failed]. split; [discriminate|].
    intros [H _]. discriminate.
Qed.

(** X20: with [--chunk] the script never saves any data: if a file is
    saved at all, its text is empty. *)
Theorem cli_chunk_mode_saves_no_data (a : Cli.Args) (path text : string) :
  Cli.chunk a = true ->
  Cli.p_saved (main a) = Some (path, text) ->
  text = "".
Proof.
  intros Hchunk. unfold Cli.main.
  destruct (negb (Cli.path_exists host (Cli.input_file a))); [discriminate|].
  destruct (negb (validate_excel_file wb (Cli.input_file a)));
    [discriminate|].
  destruct (Cli.list_sheets a).
  - destruct (detect_sheets wb (Cli.input_file a)); discriminate.
  - destruct (Cli.validate a); [discriminate|].
    unfold Cli.convert. rewrite Hchunk.
    destruct (outcome (chunked_run a)) as [chunks | e] eqn:E.
    + apply chunked_outcome_nil in E. subst chunks.
      unfold Cli.save.
      destruct (Cli.write_text host (Cli.output a) (join (nl ++ nl) []));
        cbn [Cli.p_saved]; [|discriminate].
      intros H. now injection H as _ <-.
    + discriminate.
Qed.

(** X21: with [--chunk] on a usable input whose selected sheets include a
    non-empty one, the script saves nothing and exits with status 1; the
    first line on the error stream carries the re-raised
    [UnboundLocalError] of [excel_to_chunked_text]. *)
Theorem cli_chunk_mode_fails_on_data (a : Cli.Args)
    (all_sheets : dict DataFrame) :
  usable a ->
  Cli.list_sheets a = false ->
  Cli.validate a = false ->
  Cli.chunk a = true ->
  outcome (read_sheets pd (Cli.input_file a) (selector a)) = Ok all_sheets ->
  non_empty_sheets all_sheets <> [] ->
  let p := main a in
  Cli.p_exit p = 1
  /\ Cli.p_saved p = None
  /\ Cli.p_stderr p
     = ("Error during conversion: " ++ chunked_prefix
          ++ str_exn (UnboundLocalError "chunk_df"))
         :: Cli.when (Cli.verbose a)
              (Cli.traceback host
                 (Exception
                    (chunked_prefix ++ str_exn (UnboundLocalError "chunk_df")))).
Proof.
  intros Hu Hlist Hval Hchunk Hload Hsome. cbv zeta.
  rewrite (main_usable a Hu). cbv zeta.
  rewrite Hlist, Hval. unfold Cli.convert. rewrite Hchunk.
  rewrite (chunked_text_unbound_local pd _ _ _ _ _ _ _ Hload Hsome).
  repeat split; reflexivity.
Qed.

End CliFacts.

Local Abbreviation demo_main :=
  (Cli.main DemoHost.pandas DemoHost.workbooks DemoHost.host).

Lemma demo_usable list_sheets chunk verbose :
  usable_input DemoHost.workbooks DemoHost.host
    (DemoHost.with_options DemoHost.book_path list_sheets chunk verbose).
Proof. split; reflexivity. Qed.

(** A file that does not exist, with every other option set. *)
Lemma cli_rejects_unusable_input_witness :
  Cli.path_exists DemoHost.host "nothing.xlsx" = false
  /\ Cli.p_exit (demo_main (DemoHost.with_options "nothing.xlsx" true true true))
     = 1
  /\ Cli.p_stderr
       (demo_main (DemoHost.with_options "nothing.xlsx" true true true))
     = ["Error: Input file 'nothing.xlsx' not found."].
Proof.
  split; [reflexivity|]. split; [|reflexivity].
  exact (proj1 (cli_rejects_unusable_input DemoHost.pandas DemoHost.workbooks
                  DemoHost.host
                  (DemoHost.with_options "nothing.xlsx" true true true)
                  (or_introl eq_refl))).
Defined.

(** The two sheets of the workbook of the tests. *)
Lemma cli_list_sheets_witness :
  Cli.list_sheets (DemoHost.with_options DemoHost.book_path true false false)
  = true
  /\ Cli.p_stdout
       (demo_main (DemoHost.with_options DemoHost.book_path true false false))
     = ["Available sheets in 'book.xlsx':"; "  1. Sheet1"; "  2. Sheet2"]
  /\ Cli.p_saved
       (demo_main (DemoHost.with_options DemoHost.book_path true false false))
     = None.
Proof.
  split; [reflexivity|]. split; [reflexivity|].
  exact (proj1 (cli_list_sheets DemoHost.pandas DemoHost.workbooks
                  DemoHost.host
                  (DemoHost.with_options DemoHost.book_path true false false)
                  (demo_usable true false false) eq_refl)).
Defined.

(** The default options on the workbook of the tests. *)
Lemma cli_saves_the_formatted_text_witness :
  exists text,
    outcome (excel_to_formatted_text DemoHost.pandas DemoHost.book_path
               AllSheets "csv" 5000 Demo.default_template false false)
    = Ok text
    /\ Cli.p_saved
         (demo_main (DemoHost.with_options DemoHost.book_path false false false))
       = Some ("output.txt", text).
Proof.
  destruct (outcome (excel_to_formatted_text DemoHost.pandas
                       DemoHost.book_path AllSheets "csv" 5000
                       Demo.default_template false false))
    as [text | e] eqn:E; [|discriminate E].
  exists text. split; [reflexivity|].
  apply (proj2 (cli_saves_the_formatted_text DemoHost.pandas
                  DemoHost.workbooks DemoHost.host
                  (DemoHost.with_options DemoHost.book_path false false false)
                  text (demo_usable false false false)
                  eq_refl eq_refl eq_refl)).
  split; [exact E | now exists tt].
Defined.

(** [--chunk] on the workbook of the tests. *)
Lemma cli_chunk_mode_fails_on_data_witness :
  outcome (read_sheets DemoHost.pandas DemoHost.book_path AllSheets)
  = Ok [("Sheet1", Demo.people); ("Sheet2", Demo.people)]
  /\ Cli.p_exit
       (demo_main (DemoHost.with_options DemoHost.book_path false true false))
     = 1
  /\ Cli.p_saved
       (demo_main (DemoHost.with_options DemoHost.book_path false true false))
     = None.
Proof.
  split; [reflexivity|].
  destruct (cli_chunk_mode_fails_on_data DemoHost.pandas DemoHost.workbooks
              DemoHost.host
              (DemoHost.with_options DemoHost.book_path false true false)
              [("Sheet1", Demo.people); ("Sheet2", Demo.people)]
              (demo_usable false true false) eq_refl eq_refl eq_refl eq_refl
              ltac:(discriminate))
    as (Hexit & Hsaved & _).
  split; assumption.
Defined.

(** [--chunk] on the workbook whose only sheet is empty: an empty file. *)
Lemma cli_chunk_mode_saves_no_data_witness :
  Cli.chunk (DemoHost.with_options DemoHost.empty_path false true false) = true
  /\ Cli.p_saved
       (demo_main (DemoHost.with_options DemoHost.empty_path false true false))
     = Some ("output.txt", "").
Proof.
  split; [reflexivity|].
  destruct (Cli.p_saved
              (demo_main
                 (DemoHost.with_options DemoHost.empty_path false true false)))
    as [[path text]|] eqn:E; [|discriminate E].
  rewrite (cli_chunk_mode_saves_no_data DemoHost.pandas DemoHost.workbooks
             DemoHost.host
             (DemoHost.with_options DemoHost.empty_path false true false)
             path text eq_refl E).
  vm_compute in E. injection E as <- _. reflexivity.
Defined.
